(** * Adding measurements to Schedules: the tutorial notebook, embedded

    The repository's only source is the Jupyter notebook
    [docs/tutorials/advanced/terra/pulse/adding_measurements.ipynb].

    The development has three layers.

    - [Text]: the notebook's cells, line by line, as they are stored in the
      [.ipynb] file (without the line terminators).
    - [Syntax]: a small abstract syntax for the Python statements the code
      cells are written in, a printer, and the parsed cells; printing the
      parsed cells gives back the lines of [Text].
    - [Pulse] and [Tutorial]: the parts of the pulse API the notebook calls,
      as the notebook describes them, and the notebook's code cells as
      definitions over them; [Run] evaluates the parsed cells over the same
      API, and gives the definitions of [Tutorial].
    - [Analysis], [Shape], [MeasMap] and [Idiom]: what the statements about
      the notebook are stated with. *)

From stdpp Require Import base list strings gmap pretty.
From Stdlib Require Import ZArith Lia.

Set Warnings "-register-all".
Open Scope Z_scope.

(* ===================================================================== *)
(** ** The notebook's text *)
(* ===================================================================== *)

Module Text.

(** The double-quote character, which occurs in two cells. *)
Definition dq : string := String (Ascii.ascii_of_nat 34) EmptyString.

Inductive cell : Type :=
| Markdown (source : list string)
| Code (source : list string).

Definition source (c : cell) : list string :=
  match c with Markdown s => s | Code s => s end.

Definition is_code (c : cell) : bool :=
  match c with Code _ => true | Markdown _ => false end.

Definition cell0 : cell := Markdown [
  "# Adding measurements to `Schedule`s";
  "";
  "Measurement is clearly a very important part of building a Pulse schedule -- this is required to get the results of our program execution! The powerful low-level control we are granted by Pulse gives us more freedom than `QuantumCircuit`s in specifying how the measurement should be done, enabling you to explore readout error mitigation. This power of course comes with responsibility: we have to understand how measurement works, and accomodate certain hardware constraints.";
  "";
  "On this page, we will explore in depth how to create measurements, using several different approaches of increasing complexity.";
  "";
  "**Note: Pulse allows you to receive raw, kerneled, and disciminated readout data (whereas circuits will only return discriminated data). Documentation for these options can be found here-COMING SOON.**";
  "";
  "### Adding a backend-default measurement with `measure`";
  "To add measurements as easily to `Schedule`s as to `QuantumCircuit`s, you just have to know which qubits you want to measure (below, qubits 0 and 1) and have a OpenPulse-enabled `backend`:";
  "";
  "```";
  "# Appending a measurement schedule to a Schedule, sched";
  "from qiskit.scheduler import measure";
  "sched += measure([0, 1], backend) << sched.duration";
  "```";
  "The `backend` contains a default definition for measurement, which is tailored to the qubits you are measuring.";
  "";
  "### Basic measurement pattern and `measure_all`";
  "Let's use the default measurement feature to inspect a measurement and learn what each pulse does. Below, we use `measure_all`, which measures all the qubits on the backend."
].

Definition cell1 : cell := Code [
  "from qiskit import IBMQ";
  "from qiskit.pulse import Schedule";
  "from qiskit.scheduler import measure_all";
  "from qiskit.test.mock import FakeAlmaden";
  "";
  "backend = FakeAlmaden()"
].

Definition cell2 : cell := Code [
  "sched = Schedule(name=" +:+ dq +:+ "Measurement scheduling example" +:+ dq +:+ ")";
  "sched += measure_all(backend)";
  "";
  "sched.draw()"
].

Definition cell3 : cell := Markdown [
  "Each qubit has two channels related to readout, as we see above. These are the readout transmit `MeasureChannel`s, and the readout receive `AcquireChannel`s. In superconducting qubit architectures, qubits are coupled to readout resonators. The `MeasureChannel` and `AcquireChannel`s label signal lines which connect to the readout resonator. The coupling between the qubit and the readout resonator hybridizes their state, so when a stimulus pulse is sent to the readout resonantor, the reflected pulse is dependent on the state of the qubit. The acquisition " +:+ dq +:+ "pulse" +:+ dq +:+ " is truly a trigger specifying to the analog-to-digital converter (ADC) to begin collecting data, and for how long. That data is used to classify the qubit state.";
  "";
  "### Specifying classical memory slots";
  "";
  "If you would like to specify where your measurement results go, there is an option for that in `measure`, called `qubit_mem_slots`. It takes a dictionary mapping qubit indices to classical memory slots. For example, if you want to measure qubit 0 into memory slot 1, you would do this:"
].

Definition cell4 : cell := Code [
  "from qiskit.scheduler import measure";
  "";
  "sched = measure(qubits=[0], backend=backend, qubit_mem_slots={0: 1})"
].

Definition cell5 : cell := Markdown [
  "This would be equivalent to the circuit measurement `circuit.measure(qubit_reg[0], classical_reg[1])`."
].

Definition cell6 : cell := Markdown [
  "## Build a measurement sequence from pulses";
  "";
  "Rather than use the default measurements provided by the backend, we can also build the measurement sequence up as a basic Pulse schedule. The example below is similar to a typical measurement on IBM systems.";
  "";
  "First, we'll build the measurement stimulus pulses for each of the qubits we want to measure. Below, we use a Gaussian square parametric pulse."
].

Definition cell7 : cell := Code [
  "from qiskit.pulse import MeasureChannel, AcquireChannel, MemorySlot, GaussianSquare, Acquire";
  "";
  "# Duration (in number of cycles) for readout ";
  "duration = 16000";
  "";
  "# Stimulus pulses for qubits 0 and 1";
  "measure_tx = GaussianSquare(duration=duration, amp=0.2, sigma=10, width=duration - 50)(MeasureChannel(0))";
  "measure_tx += GaussianSquare(duration=duration, amp=0.2, sigma=10, width=duration - 50)(MeasureChannel(1))"
].

Definition cell8 : cell := Markdown [
  "Before we build the acquisition pulses, we need to understand the measurement map.";
  "";
  "#### Acquiring qubits: the measurement map `meas_map`";
  "";
  "Due to control rack hardware constraints, some qubits may need to be acquired together. This can be the case for qubits whose readout channels are multiplexed. Any OpenPulse-enabled backend will provide a `meas_map` to notify the user of this.";
  "";
  "For instance, if we see this for a 5-qubit `backend`";
  "";
  "```";
  "backend.configuration().meas_map";
  "";
  "Out: [[0, 1, 2, 3, 4]]";
  "```";
  "";
  "then we know that all the qubits on this device must be acquired together. On the other hand, this output";
  "";
  "```";
  "Out: [[0], [1], [2], [3, 4]]";
  "```";
  "";
  "tells us that qubits 0, 1 and 2 can be acquired independently, but qubits 3 and 4 must be acquired together.";
  "";
  "When building up a pulse schedule, be sure to add all the acquire pulses required by the backend you plan to run on. This is validated at assemble time.";
  "";
  "Getting back to our example, let's imagine we plan to run on a backend with this measurement map: `[[0, 1, 2]]`. Now we can build the acquisition pulses. This is done with the `Acquire` command, which takes only a duration. We specify the channels and memory slots to acquire on."
].

Definition cell9 : cell := Code [
  "# Acquisition instructions";
  "acquire = Acquire(duration)";
  "measure_rx = acquire(AcquireChannel(0), MemorySlot(0))";
  "measure_rx += acquire(AcquireChannel(1), MemorySlot(1))"
].

Definition cell10 : cell := Markdown [
  "Finally, we just combine the two parts together. Every instruction is on a different channel, so appending schedules the instructions at time 0. The `measure_schedule` can then be added to the end of any Pulse schedule to measure qubits 0 and 1 into classical memory slots 0 and 1."
].

Definition cell11 : cell := Code [
  "measure_sched = measure_tx + measure_rx";
  "";
  "measure_sched.draw()"
].

Definition cell12 : cell := Code [
  "import qiskit.tools.jupyter";
  "%qiskit_version_table";
  "%qiskit_copyright"
].

Definition notebook : list cell :=
  [cell0; cell1; cell2; cell3; cell4; cell5; cell6; cell7; cell8; cell9;
   cell10; cell11; cell12].

Definition code_cells : list cell := filter (fun c => is_code c = true) notebook.

Definition code_lines : list string := concat (map source code_cells).

End Text.

(* ===================================================================== *)
(** ** Abstract syntax of the code cells *)
(* ===================================================================== *)

Module Syntax.
Import Text.

Inductive binop : Type := Add | Sub | LShift.

(** Expressions.  A call carries its arguments in order, each with the
    keyword it is passed under, if any.  A float literal keeps its digits. *)
Inductive expr : Type :=
| EName (x : string)
| EInt (n : Z)
| EFloat (digits : string)
| EStr (s : string)
| EList (items : list expr)
| EDict (items : list (expr * expr))
| EAttr (e : expr) (field : string)
| ECall (f : expr) (args : list (option string * expr))
| EBinOp (op : binop) (l r : expr).

(** Statements, one per source line.  The notebook has no compound
    statement; [SMagic] is an IPython line magic. *)
Inductive stmt : Type :=
| SBlank
| SComment (text : string)
| SImport (module : string)
| SFromImport (module : string) (names : list string)
| SAssign (target : string) (e : expr)
| SAugAssign (target : string) (op : binop) (e : expr)
| SExpr (e : expr)
| SMagic (name : string).

(** *** Printer *)

Fixpoint join (sep : string) (l : list string) : string :=
  match l with
  | [] => ""
  | [s] => s
  | s :: rest => s +:+ sep +:+ join sep rest
  end.

Definition show_binop (op : binop) : string :=
  match op with Add => "+" | Sub => "-" | LShift => "<<" end.

Definition is_binop (e : expr) : bool :=
  match e with EBinOp _ _ _ => true | _ => false end.

Definition paren_if (b : bool) (s : string) : string :=
  if b then "(" +:+ s +:+ ")" else s.

Fixpoint show_expr (e : expr) : string :=
  match e with
  | EName x => x
  | EInt n => pretty n
  | EFloat d => d
  | EStr s => dq +:+ s +:+ dq
  | EList items => "[" +:+ join ", " (map show_expr items) +:+ "]"
  | EDict items =>
      "{" +:+ join ", " (map (fun kv => show_expr (fst kv) +:+ ": " +:+ show_expr (snd kv)) items) +:+ "}"
  | EAttr e f => show_expr e +:+ "." +:+ f
  | ECall f args =>
      show_expr f +:+ "(" +:+
      join ", " (map (fun a => match fst a with
                               | Some k => k +:+ "=" +:+ show_expr (snd a)
                               | None => show_expr (snd a)
                               end) args) +:+ ")"
  | EBinOp op l r =>
      paren_if (is_binop l) (show_expr l) +:+ " " +:+ show_binop op +:+ " " +:+
      paren_if (is_binop r) (show_expr r)
  end.

Definition show_stmt (s : stmt) : string :=
  match s with
  | SBlank => ""
  | SComment t => "#" +:+ t
  | SImport m => "import " +:+ m
  | SFromImport m names => "from " +:+ m +:+ " import " +:+ join ", " names
  | SAssign x e => x +:+ " = " +:+ show_expr e
  | SAugAssign x op e => x +:+ " " +:+ show_binop op +:+ "= " +:+ show_expr e
  | SExpr e => show_expr e
  | SMagic m => "%" +:+ m
  end.

(** *** The parsed code cells *)

Definition call (f : string) (args : list (option string * expr)) : expr :=
  ECall (EName f) args.
Definition pos (e : expr) : option string * expr := (None, e).
Definition kw (k : string) (e : expr) : option string * expr := (Some k, e).

Definition code1 : list stmt := [
  SFromImport "qiskit" ["IBMQ"];
  SFromImport "qiskit.pulse" ["Schedule"];
  SFromImport "qiskit.scheduler" ["measure_all"];
  SFromImport "qiskit.test.mock" ["FakeAlmaden"];
  SBlank;
  SAssign "backend" (call "FakeAlmaden" [])
].

Definition code2 : list stmt := [
  SAssign "sched" (call "Schedule" [kw "name" (EStr "Measurement scheduling example")]);
  SAugAssign "sched" Add (call "measure_all" [pos (EName "backend")]);
  SBlank;
  SExpr (ECall (EAttr (EName "sched") "draw") [])
].

Definition code4 : list stmt := [
  SFromImport "qiskit.scheduler" ["measure"];
  SBlank;
  SAssign "sched"
    (call "measure" [kw "qubits" (EList [EInt 0]);
                     kw "backend" (EName "backend");
                     kw "qubit_mem_slots" (EDict [(EInt 0, EInt 1)])])
].

Definition gaussian_square_call : expr :=
  call "GaussianSquare"
    [kw "duration" (EName "duration");
     kw "amp" (EFloat "0.2");
     kw "sigma" (EInt 10);
     kw "width" (EBinOp Sub (EName "duration") (EInt 50))].

Definition code7 : list stmt := [
  SFromImport "qiskit.pulse"
    ["MeasureChannel"; "AcquireChannel"; "MemorySlot"; "GaussianSquare"; "Acquire"];
  SBlank;
  SComment " Duration (in number of cycles) for readout ";
  SAssign "duration" (EInt 16000);
  SBlank;
  SComment " Stimulus pulses for qubits 0 and 1";
  SAssign "measure_tx"
    (ECall gaussian_square_call [pos (call "MeasureChannel" [pos (EInt 0)])]);
  SAugAssign "measure_tx" Add
    (ECall gaussian_square_call [pos (call "MeasureChannel" [pos (EInt 1)])])
].

Definition code9 : list stmt := [
  SComment " Acquisition instructions";
  SAssign "acquire" (call "Acquire" [pos (EName "duration")]);
  SAssign "measure_rx"
    (call "acquire" [pos (call "AcquireChannel" [pos (EInt 0)]);
                     pos (call "MemorySlot" [pos (EInt 0)])]);
  SAugAssign "measure_rx" Add
    (call "acquire" [pos (call "AcquireChannel" [pos (EInt 1)]);
                     pos (call "MemorySlot" [pos (EInt 1)])])
].

Definition code11 : list stmt := [
  SAssign "measure_sched" (EBinOp Add (EName "measure_tx") (EName "measure_rx"));
  SBlank;
  SExpr (ECall (EAttr (EName "measure_sched") "draw") [])
].

Definition code12 : list stmt := [
  SImport "qiskit.tools.jupyter";
  SMagic "qiskit_version_table";
  SMagic "qiskit_copyright"
].

(** The code cells in notebook order, and the whole program. *)
Definition parsed_cells : list (list stmt) :=
  [code1; code2; code4; code7; code9; code11; code12].

Definition program : list stmt := concat parsed_cells.

(** The fenced snippet of the first markdown cell (its lines 13 to 15). *)
Definition snippet0 : list stmt := [
  SComment " Appending a measurement schedule to a Schedule, sched";
  SFromImport "qiskit.scheduler" ["measure"];
  SAugAssign "sched" Add
    (EBinOp LShift
       (call "measure" [pos (EList [EInt 0; EInt 1]); pos (EName "backend")])
       (EAttr (EName "sched") "duration"))
].

(** The measurement maps printed in the ninth cell. *)
Definition meas_map_all : expr :=
  EList [EList [EInt 0; EInt 1; EInt 2; EInt 3; EInt 4]].
Definition meas_map_split : expr :=
  EList [EList [EInt 0]; EList [EInt 1]; EList [EInt 2]; EList [EInt 3; EInt 4]].

End Syntax.

(* ===================================================================== *)
(** ** The pulse API the notebook calls *)
(* ===================================================================== *)

Module Pulse.

(** Modelled from the spec: the channel constructors are parameterized by
    index.  The framework's channel classes are imported by the notebook and
    are not in the repository.  Measure and acquire channels are the hardware
    channels instructions are placed on. *)
Inductive channel : Type :=
| MeasureChannel (index : nat)
| AcquireChannel (index : nat).

(** Modelled from the spec: a memory slot is a classical storage location for
    a measurement outcome; the class is imported, not defined here. *)
Inductive memory_slot : Type :=
| MemorySlot (index : nat).

Global Instance channel_eq_dec : EqDecision channel.
Proof. solve_decision. Defined.
Global Instance memory_slot_eq_dec : EqDecision memory_slot.
Proof. solve_decision. Defined.

Definition channel_index (c : channel) : nat :=
  match c with MeasureChannel i => i | AcquireChannel i => i end.
Definition slot_index (m : memory_slot) : nat :=
  match m with MemorySlot i => i end.

(** Modelled from the spec: the pulse-shape constructor is parameterized by
    duration, amplitude, sigma and width.  The amplitude is a float; it is
    kept as the digits it is written with and never computed with. *)
Record GaussianSquare : Type := mkGaussianSquare {
  pulse_duration : Z;
  amp : string;
  sigma : Z;
  width : Z
}.

(** Modelled from the spec: the instructions of a schedule, which the
    framework defines, are a pulse played on a channel and an acquisition on
    an acquire channel into a memory slot. *)
Inductive instruction : Type :=
| Play (pulse : GaussianSquare) (on : channel)
| AcquireInstruction (acquire_duration : Z) (on : channel) (mem_slot : memory_slot).

Definition inst_duration (i : instruction) : Z :=
  match i with
  | Play p _ => pulse_duration p
  | AcquireInstruction d _ _ => d
  end.

Definition inst_channel (i : instruction) : channel :=
  match i with
  | Play _ c => c
  | AcquireInstruction _ c _ => c
  end.

(** Modelled from the spec: a pulse schedule is a time-ordered container of
    instructions on hardware channels; the framework's Schedule class is not
    in the repository.  Here it is the list of its instructions, each with
    its start time. *)
Abbreviation Schedule := (list (Z * instruction)) (only parsing).

Definition start_time (ti : Z * instruction) : Z := fst ti.
Definition stop_time (ti : Z * instruction) : Z := fst ti + inst_duration (snd ti).

Definition channels (s : Schedule) : list channel :=
  map (fun ti => inst_channel (snd ti)) s.

(** Modelled from the spec: the latest stop time of the instructions of [s]
    on the channels [chans] (0 when there is none); the schedule is the
    framework's time-ordered container. *)
Definition ch_stop_time (s : Schedule) (chans : list channel) : Z :=
  foldr Z.max 0
    (map stop_time (filter (fun ti => inst_channel (snd ti) ∈ chans) s)).

(** Modelled from the spec: [sched.duration], an attribute of the
    framework's schedule, is the time the last instruction ends. *)
Definition duration_of (s : Schedule) : Z :=
  foldr Z.max 0 (map stop_time s).

(** Modelled from the spec: [sched << time], an operator of the framework's
    schedule, delays every instruction by [time]. *)
Definition shift (time : Z) (s : Schedule) : Schedule :=
  map (fun ti => (fst ti + time, snd ti)) s.

(** Modelled from the spec: the instructions of [other], delayed by [time],
    join those of [s] in the container. *)
Definition insert (time : Z) (s other : Schedule) : Schedule :=
  s ++ shift time other.

(** The channels of [other] that [s] has instructions on. *)
Definition common_channels (s other : Schedule) : list channel :=
  filter (fun c => c ∈ channels s) (channels other).

(** Modelled from the spec: [s + other] appends; the operator belongs to the
    framework's schedule.  The eleventh cell of the notebook says that
    instructions on channels not used so far are scheduled at time 0 by
    appending: the appended schedule is placed after the last instruction of
    [s] on the channels the two schedules share. *)
Definition append (s other : Schedule) : Schedule :=
  insert (ch_stop_time s (common_channels s other)) s other.

(** Modelled from the spec: [Schedule(name=...)], the framework's
    constructor, gives a new, empty schedule. *)
Definition new_schedule (name : string) : Schedule := [].

(** Modelled from the spec: [GaussianSquare(...)(channel)], the application
    of the framework's pulse to a channel, is the pulse on that channel at
    time 0. *)
Definition play (p : GaussianSquare) (c : channel) : Schedule := [(0, Play p c)].

(** Modelled from the spec: the acquisition command is parameterized by a
    duration and applied to a channel and a memory slot. *)
Definition Acquire (duration : Z) (c : channel) (m : memory_slot) : Schedule :=
  [(0, AcquireInstruction duration c m)].

(** Modelled from the spec: the backend object carries the default
    definition of a measurement; the backend class is imported. *)
Record Backend : Type := mkBackend {
  n_qubits : nat;
  default_stimulus : nat -> GaussianSquare;
  default_acquire_duration : Z
}.

(** Modelled from the spec: the memory slot [measure] acquires a qubit into
    is the one the optional mapping [qubit_mem_slots] gives, and the slot
    with the qubit's own index otherwise. *)
Definition mem_slot_of (qubit_mem_slots : option (gmap nat nat)) (q : nat) : memory_slot :=
  match qubit_mem_slots with
  | Some d => MemorySlot (default q (d !! q))
  | None => MemorySlot q
  end.

(** Modelled from the spec: the measurement builder takes qubit indices, a
    backend and an optional mapping from qubits to memory slots.  For every
    qubit it gives the backend's stimulus on the qubit's measure channel and
    an acquisition on its acquire channel into its memory slot, at time 0. *)
Definition measure (qubits : list nat) (backend : Backend)
    (qubit_mem_slots : option (gmap nat nat)) : Schedule :=
  flat_map (fun q =>
    [(0, Play (default_stimulus backend q) (MeasureChannel q));
     (0, AcquireInstruction (default_acquire_duration backend) (AcquireChannel q)
           (mem_slot_of qubit_mem_slots q))]) qubits.

(** The acquisitions of a schedule: acquire channel and memory slot. *)
Definition acquisitions (s : Schedule) : list (channel * memory_slot) :=
  omap (fun ti => match snd ti with
                  | AcquireInstruction _ c m => Some (c, m)
                  | Play _ _ => None
                  end) s.

(** Modelled from the spec: [measure_all(backend)], imported like [measure],
    measures all the qubits of the backend (first cell). *)
Definition measure_all (backend : Backend) : Schedule :=
  measure (seq 0 (n_qubits backend)) backend None.

End Pulse.

(* ===================================================================== *)
(** ** The notebook's code cells over the API *)
(* ===================================================================== *)

Module Tutorial.
Import Pulse.

Section Cells.
Variable FakeAlmaden : Backend.

(** Second cell. *)
Definition backend : Backend := FakeAlmaden.

(** Third cell. *)
Definition sched_new : Schedule := new_schedule "Measurement scheduling example".
Definition sched_all : Schedule := append sched_new (measure_all backend).

(** Fifth cell. *)
Definition qubit_mem_slots : gmap nat nat := {[ 0%nat := 1%nat ]}.
Definition sched : Schedule := measure [0%nat] backend (Some qubit_mem_slots).

(** The snippet of the first cell, for a schedule [sched0] built so far. *)
Definition add_measurement (sched0 : Schedule) : Schedule :=
  append sched0 (shift (duration_of sched0) (measure [0%nat; 1%nat] backend None)).
End Cells.

(** Eighth cell. *)
Definition duration : Z := 16000.
Definition stimulus : GaussianSquare :=
  mkGaussianSquare duration "0.2" 10 (duration - 50).
Definition measure_tx_0 : Schedule := play stimulus (MeasureChannel 0).
Definition measure_tx : Schedule :=
  append measure_tx_0 (play stimulus (MeasureChannel 1)).

(** Tenth cell. *)
Definition acquire : channel -> memory_slot -> Schedule := Acquire duration.
Definition measure_rx_0 : Schedule := acquire (AcquireChannel 0) (MemorySlot 0).
Definition measure_rx : Schedule :=
  append measure_rx_0 (acquire (AcquireChannel 1) (MemorySlot 1)).

(** Twelfth cell. *)
Definition measure_sched : Schedule := append measure_tx measure_rx.

End Tutorial.

(* ===================================================================== *)
(** ** Reading the code cells *)
(* ===================================================================== *)

Module Analysis.
Import Text Syntax.

(** *** Words of a source line *)

Definition is_ident_char (c : Ascii.ascii) : bool :=
  let n := Ascii.nat_of_ascii c in
  ((48 <=? n) && (n <=? 57) || (65 <=? n) && (n <=? 90) ||
   (97 <=? n) && (n <=? 122) || (n =? 95))%nat.

Definition flush (word : string) (acc : list string) : list string :=
  match word with EmptyString => acc | _ => String.rev word :: acc end.

(** [word] is the current word, reversed; [acc] the words so far, reversed. *)
Fixpoint words_go (s : string) (word : string) (acc : list string) : list string :=
  match s with
  | EmptyString => rev (flush word acc)
  | String c rest =>
      if is_ident_char c then words_go rest (String c word) acc
      else words_go rest EmptyString (flush word acc)
  end.

(** The maximal runs of letters, digits and underscores of a line. *)
Definition words (s : string) : list string := words_go s EmptyString [].

Definition code_words : list string := flat_map words code_lines.

Fixpoint contains (pattern s : string) : bool :=
  String.prefix pattern s ||
  match s with
  | EmptyString => false
  | String _ rest => contains pattern rest
  end.

(** The package of a dotted module path: the part before its first dot. *)
Fixpoint root_package (m : string) : string :=
  match m with
  | EmptyString => EmptyString
  | String c rest =>
      if Ascii.eqb c (Ascii.ascii_of_nat 46) then EmptyString else String c (root_package rest)
  end.

(** *** Expressions of a program *)

Fixpoint subexprs (e : expr) : list expr :=
  e :: match e with
       | EList items => flat_map subexprs items
       | EDict items => flat_map (fun kv => subexprs (fst kv) ++ subexprs (snd kv)) items
       | EAttr e1 _ => subexprs e1
       | ECall f args => subexprs f ++ flat_map (fun a => subexprs (snd a)) args
       | EBinOp _ l r => subexprs l ++ subexprs r
       | _ => []
       end.

Definition stmt_expr (s : stmt) : option expr :=
  match s with
  | SAssign _ e | SAugAssign _ _ e | SExpr e => Some e
  | _ => None
  end.

Definition stmt_exprs (s : stmt) : list expr :=
  match stmt_expr s with Some e => subexprs e | None => [] end.

Definition exprs (p : list stmt) : list expr := flat_map stmt_exprs p.

(** Every call of a program: the called expression and the arguments. *)
Definition calls (p : list stmt) : list (expr * list (option string * expr)) :=
  omap (fun e => match e with ECall f args => Some (f, args) | _ => None end) (exprs p).

(** The argument lists of the calls of the name [f]. *)
Definition calls_of (f : string) (p : list stmt) : list (list (option string * expr)) :=
  omap (fun c => match fst c with
                 | EName g => if bool_decide (g = f) then Some (snd c) else None
                 | _ => None
                 end) (calls p).


(** The imports of a program, in order: module and the name bound.  A
    [from m import a, b] binds [a] and [b]; a plain [import a.b.c] binds the
    top-level package [a]. *)
Definition imports (p : list stmt) : list (string * string) :=
  flat_map (fun s => match s with
                     | SFromImport m names => map (fun n => (m, n)) names
                     | SImport m => [(m, root_package m)]
                     | _ => []
                     end) p.

(** *** Binding of call arguments to parameters

    As Python does it: positional arguments fill the parameters in order,
    a keyword argument names its parameter, and no parameter is given
    twice. *)
Fixpoint bind_args {A : Type} (params : list string) (args : list (option string * A))
    (bound : list (string * A)) : option (list (string * A)) :=
  match args with
  | [] => Some bound
  | (None, e) :: rest =>
      match filter (fun x => x ∉ map fst bound) params with
      | x :: _ => bind_args params rest (bound ++ [(x, e)])
      | [] => None
      end
  | (Some k, e) :: rest =>
      if bool_decide (k ∈ params) && bool_decide (k ∉ map fst bound)
      then bind_args params rest (bound ++ [(k, e)])
      else None
  end.

Fixpoint lookup_arg {A : Type} (x : string) (bound : list (string * A)) : option A :=
  match bound with
  | [] => None
  | (y, e) :: rest => if bool_decide (x = y) then Some e else lookup_arg x rest
  end.

(** *** Integer variables

    The integer value of an expression, when the variables it mentions hold
    integers. *)
Fixpoint eval_int (env : gmap string Z) (e : expr) : option Z :=
  match e with
  | EInt n => Some n
  | EName x => env !! x
  | EBinOp op l r =>
      match eval_int env l, eval_int env r with
      | Some a, Some b =>
          match op with
          | Add => Some (a + b)
          | Sub => Some (a - b)
          | LShift => if 0 <=? b then Some (Z.shiftl a b) else None
          end
      | _, _ => None
      end
  | _ => None
  end.

(** The integer variables after a statement: an assignment to a variable
    replaces what it held. *)
Definition exec_int (env : gmap string Z) (s : stmt) : gmap string Z :=
  match s with
  | SAssign x e =>
      match eval_int env e with
      | Some v => <[x := v]> env
      | None => delete x env
      end
  | SAugAssign x op e =>
      match eval_int env (EBinOp op (EName x) e) with
      | Some v => <[x := v]> env
      | None => delete x env
      end
  | SFromImport _ names => foldr delete env names
  | _ => env
  end.

(** Every statement with the integer variables it is run with. *)
Fixpoint with_env (env : gmap string Z) (p : list stmt) : list (gmap string Z * stmt) :=
  match p with
  | [] => []
  | s :: rest => (env, s) :: with_env (exec_int env s) rest
  end.

(** The calls of [f] with their arguments, each keyword argument evaluated
    to an integer where it has one. *)
Definition int_args_of (f : string) (p : list stmt)
    : list (list (option string * option Z)) :=
  flat_map (fun es =>
     map (map (fun a => (fst a, eval_int (fst es) (snd a))))
         (calls_of f [snd es]))
    (with_env ∅ p).

End Analysis.

(* ===================================================================== *)
(** ** Running the code cells *)
(* ===================================================================== *)

Module Run.
Import Syntax Analysis Pulse.

(** What a variable of the notebook can hold. *)
Inductive value : Type :=
| VNone
| VInt (n : Z)
| VFloat (digits : string)
| VStr (s : string)
| VList (items : list value)
| VDict (items : list (value * value))
| VSymbol (name : string)
| VModule (name : string)
| VMethod (self : value) (name : string)
| VBackend (b : Backend)
| VChannel (c : channel)
| VMemorySlot (m : memory_slot)
| VPulse (p : GaussianSquare)
| VAcquire (duration : Z)
| VSchedule (s : Schedule).

Definition as_int (v : value) : option Z :=
  match v with VInt n => Some n | _ => None end.

Definition as_nat (v : value) : option nat :=
  match v with
  | VInt n => if 0 <=? n then Some (Z.to_nat n) else None
  | _ => None
  end.

Definition as_nats (v : value) : option (list nat) :=
  match v with VList items => mapM as_nat items | _ => None end.

(** A dict literal: a later entry replaces an earlier one with its key. *)
Definition as_slots (v : value) : option (gmap nat nat) :=
  match v with
  | VDict items =>
      foldl (fun acc kv =>
               d ← acc; k ← as_nat (fst kv); s ← as_nat (snd kv);
               Some (<[k := s]> d))
            (Some ∅) items
  | _ => None
  end.

Definition as_backend (v : value) : option Backend :=
  match v with VBackend b => Some b | _ => None end.

Section WithBackend.
Variable FakeAlmaden : Backend.

(** The imported symbols, called with their arguments bound. *)
Definition call_symbol (name : string) (args : list (option string * value))
    : option value :=
  if bool_decide (name = "FakeAlmaden") then
    match args with [] => Some (VBackend FakeAlmaden) | _ => None end
  else if bool_decide (name = "Schedule") then
    b ← bind_args ["name"] args [];
    match lookup_arg "name" b with
    | Some (VStr n) => Some (VSchedule (new_schedule n))
    | _ => None
    end
  else if bool_decide (name = "measure_all") then
    b ← bind_args ["backend"] args [];
    backend ← lookup_arg "backend" b ≫= as_backend;
    Some (VSchedule (measure_all backend))
  else if bool_decide (name = "measure") then
    b ← bind_args ["qubits"; "backend"; "qubit_mem_slots"] args [];
    qubits ← lookup_arg "qubits" b ≫= as_nats;
    backend ← lookup_arg "backend" b ≫= as_backend;
    match lookup_arg "qubit_mem_slots" b with
    | None => Some (VSchedule (measure qubits backend None))
    | Some d => slots ← as_slots d; Some (VSchedule (measure qubits backend (Some slots)))
    end
  else if bool_decide (name = "MeasureChannel") then
    b ← bind_args ["index"] args [];
    i ← lookup_arg "index" b ≫= as_nat; Some (VChannel (MeasureChannel i))
  else if bool_decide (name = "AcquireChannel") then
    b ← bind_args ["index"] args [];
    i ← lookup_arg "index" b ≫= as_nat; Some (VChannel (AcquireChannel i))
  else if bool_decide (name = "MemorySlot") then
    b ← bind_args ["index"] args [];
    i ← lookup_arg "index" b ≫= as_nat; Some (VMemorySlot (MemorySlot i))
  else if bool_decide (name = "GaussianSquare") then
    b ← bind_args ["duration"; "amp"; "sigma"; "width"] args [];
    d ← lookup_arg "duration" b ≫= as_int;
    s ← lookup_arg "sigma" b ≫= as_int;
    w ← lookup_arg "width" b ≫= as_int;
    match lookup_arg "amp" b with
    | Some (VFloat a) => Some (VPulse (mkGaussianSquare d a s w))
    | _ => None
    end
  else if bool_decide (name = "Acquire") then
    b ← bind_args ["duration"] args [];
    d ← lookup_arg "duration" b ≫= as_int; Some (VAcquire d)
  else None.

Definition apply (f : value) (args : list (option string * value)) : option value :=
  match f, args with
  | VSymbol name, _ => call_symbol name args
  | VPulse p, [(None, VChannel (MeasureChannel i))] =>
      Some (VSchedule (play p (MeasureChannel i)))
  | VAcquire d, [(None, VChannel (AcquireChannel i)); (None, VMemorySlot m)] =>
      Some (VSchedule (Acquire d (AcquireChannel i) m))
  | VMethod (VSchedule _) "draw", [] => Some VNone
  | _, _ => None
  end.

Definition get_attr (v : value) (field : string) : option value :=
  match v with
  | VSchedule s =>
      if bool_decide (field = "duration") then Some (VInt (duration_of s))
      else if bool_decide (field = "draw") then Some (VMethod v field)
      else None
  | _ => None
  end.

Definition apply_binop (op : binop) (a b : value) : option value :=
  match op, a, b with
  | Add, VInt x, VInt y => Some (VInt (x + y))
  | Sub, VInt x, VInt y => Some (VInt (x - y))
  | Add, VSchedule s, VSchedule t => Some (VSchedule (append s t))
  | LShift, VSchedule s, VInt t => Some (VSchedule (shift t s))
  | _, _, _ => None
  end.

Fixpoint eval (env : gmap string value) (e : expr) : option value :=
  match e with
  | EName x => env !! x
  | EInt n => Some (VInt n)
  | EFloat d => Some (VFloat d)
  | EStr s => Some (VStr s)
  | EList items => VList <$> mapM (eval env) items
  | EDict items =>
      VDict <$> mapM (fun kv => k ← eval env (fst kv); v ← eval env (snd kv);
                                Some (k, v)) items
  | EAttr e1 field => v ← eval env e1; get_attr v field
  | ECall f args =>
      fv ← eval env f;
      avs ← mapM (fun a => v ← eval env (snd a); Some (fst a, v)) args;
      apply fv avs
  | EBinOp op l r => a ← eval env l; b ← eval env r; apply_binop op a b
  end.

(** One statement.  A [from ... import] binds the names it lists, a plain
    [import a.b.c] binds the top-level package [a]; the line magics display
    and bind nothing.  The environment holds what the statements bind: the
    names Python's builtins give every kernel are not in it, and no statement
    of the notebook reads one. *)
Definition exec (env : gmap string value) (s : stmt) : option (gmap string value) :=
  match s with
  | SBlank | SComment _ | SMagic _ => Some env
  | SImport m => Some (<[root_package m := VModule (root_package m)]> env)
  | SFromImport _ names => Some (foldl (fun acc n => <[n := VSymbol n]> acc) env names)
  | SAssign x e => v ← eval env e; Some (<[x := v]> env)
  | SAugAssign x op e =>
      a ← env !! x; b ← eval env e; v ← apply_binop op a b; Some (<[x := v]> env)
  | SExpr e => _ ← eval env e; Some env
  end.

Definition run (p : list stmt) (env : gmap string value) : option (gmap string value) :=
  foldl (fun acc s => env' ← acc; exec env' s) (Some env) p.

(** The value a variable holds after a program has run. *)
Definition value_after (p : list stmt) (env : gmap string value) (x : string)
    : option value :=
  run p env ≫= (fun env' => env' !! x).

End WithBackend.

End Run.

(* ===================================================================== *)
(** ** The measurement map *)
(* ===================================================================== *)

Module MeasMap.
Import Syntax Run.

(** The map the ninth cell prints second. *)
Definition meas_map : list (list nat) :=
  [[0]; [1]; [2]; [3; 4]]%nat.

(** The groups of the map a qubit belongs to. *)
Definition groups_of (m : list (list nat)) (q : nat) : list (list nat) :=
  filter (fun g => q ∈ g) m.

(** Modelled from the spec: a measurement map groups the qubits that must be
    acquired together; the framework that reads the map is not in the
    repository.  [acquired_with m q] lists the qubits that are to be acquired
    when [q] is: the members of the groups of [q]. *)
Definition acquired_with (m : list (list nat)) (q : nat) : list nat :=
  concat (groups_of m q).

Definition acquired_together (m : list (list nat)) (a b : nat) : bool :=
  bool_decide (b ∈ acquired_with m a).

(** A qubit that can be acquired independently: no other qubit comes with it. *)
Definition independent (m : list (list nat)) (q : nat) : bool :=
  bool_decide (acquired_with m q = [q]).

(** A printed map read back: a list of lists of qubit indices. *)
Definition read_qubit (e : expr) : option nat :=
  match e with EInt n => as_nat (VInt n) | _ => None end.

Definition read_group (e : expr) : option (list nat) :=
  match e with EList qubits => mapM read_qubit qubits | _ => None end.

Definition read_meas_map (e : expr) : option (list (list nat)) :=
  match e with EList groups => mapM read_group groups | _ => None end.

End MeasMap.

(* ===================================================================== *)
(** ** What the code cells are made of *)
(* ===================================================================== *)

Module Shape.
Import Text Syntax Analysis.

(** *** Where a called name comes from *)

(** The name a called expression starts with. *)
Fixpoint head (f : expr) : string :=
  match f with
  | EName x => x
  | ECall g _ => head g
  | EAttr e _ => head e
  | _ => ""
  end.

Definition names (e : expr) : list string :=
  omap (fun x => match x with EName n => Some n | _ => None end) (subexprs e).

(** For every bound name, the imported symbols its value is made from. *)
Definition origin_of (o : gmap string (list string)) (e : expr) : list string :=
  flat_map (fun x => default [] (o !! x)) (names e).

Definition bind_stmt (o : gmap string (list string)) (s : stmt)
    : gmap string (list string) :=
  match s with
  | SFromImport _ imported => foldl (fun acc n => <[n := [n]]> acc) o imported
  | SAssign x e => <[x := origin_of o e]> o
  | SAugAssign x _ e => <[x := default [] (o !! x) ++ origin_of o e]> o
  | _ => o
  end.

(** The calls of a statement: the name the call starts with and the imported
    symbols that name stands for when the statement runs. *)
Definition invoked (o : gmap string (list string)) (s : stmt)
    : list (string * list string) :=
  map (fun c => (head (fst c), default [] (o !! head (fst c)))) (calls [s]).

Fixpoint invoked_all (o : gmap string (list string)) (p : list stmt)
    : list (string * list string) :=
  match p with
  | [] => []
  | s :: rest => invoked o s ++ invoked_all (bind_stmt o s) rest
  end.

Definition from_qiskit (p : list stmt) (n : string) : Prop :=
  Exists (fun mn => snd mn = n /\ root_package (fst mn) = "qiskit") (imports p).

Global Instance from_qiskit_dec (p : list stmt) (n : string) : Decision (from_qiskit p n).
Proof. unfold from_qiskit. apply _. Defined.

Definition claimed_operations : list string :=
  ["measure"; "measure_all"; "GaussianSquare"; "Acquire";
   "MeasureChannel"; "AcquireChannel"; "MemorySlot"; "Schedule"].

Definition definition_keywords : list string := ["def"; "class"; "lambda"].
Definition error_keywords : list string :=
  ["try"; "except"; "finally"; "raise"; "assert"].
Definition validation_words : list string := ["meas_map"; "assemble"].

(** *** The forms of the statements *)

Fixpoint is_literal (e : expr) : bool :=
  match e with
  | EInt _ | EFloat _ | EStr _ => true
  | EList items => forallb is_literal items
  | EDict items => forallb (fun kv => is_literal (fst kv) && is_literal (snd kv)) items
  | _ => false
  end.




(** *** The acquisitions as written *)

(** An application [acquire(AcquireChannel(i), MemorySlot(j))] read as the
    pair of indices. *)
Definition parse_pair (args : list (option string * expr)) : option (Z * Z) :=
  match args with
  | [(None, ECall (EName c) [(None, EInt i)]);
     (None, ECall (EName m) [(None, EInt j)])] =>
      if bool_decide (c = "AcquireChannel") && bool_decide (m = "MemorySlot")
      then Some (i, j) else None
  | _ => None
  end.

(** The integer a call passes under the keyword [k]. *)
Fixpoint int_arg (k : string) (args : list (option string * option Z)) : option Z :=
  match args with
  | [] => None
  | (Some k', v) :: rest => if bool_decide (k' = k) then v else int_arg k rest
  | (None, _) :: rest => int_arg k rest
  end.

(** The statements that assign to a variable. *)
Definition assigns_to (x : string) (s : stmt) : bool :=
  match s with
  | SAssign y _ | SAugAssign y _ _ => bool_decide (y = x)
  | _ => false
  end.

Definition assignments_to (x : string) (p : list stmt) : list stmt :=
  filter (fun s => assigns_to x s = true) p.

(** A call of [measure] with its arguments bound to the parameters the
    builder takes. *)
Definition measure_params : list string := ["qubits"; "backend"; "qubit_mem_slots"].

Definition is_int_list (e : expr) : bool :=
  match e with
  | EList items => forallb (fun x => match x with EInt _ => true | _ => false end) items
  | _ => false
  end.

Definition is_int_dict (e : expr) : bool :=
  match e with
  | EDict items =>
      forallb (fun kv => match kv with (EInt _, EInt _) => true | _ => false end) items
  | _ => false
  end.

Definition measure_call_ok (args : list (option string * expr)) : bool :=
  match bind_args measure_params args [] with
  | Some b =>
      match lookup_arg "qubits" b, lookup_arg "backend" b with
      | Some q, Some (EName _) =>
          is_int_list q &&
          match lookup_arg "qubit_mem_slots" b with
          | Some d => is_int_dict d
          | None => true
          end
      | _, _ => false
      end
  | None => false
  end.

End Shape.

(* ===================================================================== *)
(** ** The forms the code cells are written in *)
(* ===================================================================== *)

Module Forms.
Import Syntax Analysis Shape Pulse Run.

(** What a name stands for when a statement is reached. *)
Inductive kind : Type :=
| KSymbol     (* a symbol imported from a module of the qiskit package *)
| KModule     (* the package a plain import binds *)
| KInt        (* a variable holding an integer *)
| KLiteral    (* a variable holding another literal *)
| KObject.    (* a variable holding the result of a call, or a sum of such *)

Global Instance kind_eq_dec : EqDecision kind.
Proof. solve_decision. Defined.

(** The kind of the value of an expression, for the expressions of these
    forms and no other:
    - a literal; a variable (not an imported symbol or a module);
    - the difference of an integer variable and an integer literal;
    - the sum of two variables that hold results of calls;
    - a call whose arguments are of these forms, of an imported symbol, of a
      variable that holds the result of a call, of the result of a call
      directly, or of the method [draw] of a variable that holds the result
      of a call. *)
Fixpoint kind_of (env : gmap string kind) (e : expr) : option kind :=
  match e with
  | EInt _ => Some KInt
  | EFloat _ | EStr _ => Some KLiteral
  | EList _ | EDict _ => if is_literal e then Some KLiteral else None
  | EName x =>
      match env !! x with
      | Some KInt => Some KInt
      | Some KLiteral => Some KLiteral
      | Some KObject => Some KObject
      | _ => None
      end
  | EBinOp Sub (EName x) (EInt _) =>
      match env !! x with Some KInt => Some KInt | _ => None end
  | EBinOp Add (EName x) (EName y) =>
      match env !! x, env !! y with
      | Some KObject, Some KObject => Some KObject
      | _, _ => None
      end
  | ECall f args =>
      let callee :=
        match f with
        | EName x =>
            match env !! x with
            | Some KSymbol | Some KObject => true
            | _ => false
            end
        | ECall _ _ =>
            match kind_of env f with Some KObject => true | _ => false end
        | EAttr (EName v) field =>
            bool_decide (field = "draw") &&
            match env !! v with Some KObject => true | _ => false end
        | _ => false
        end in
      if callee &&
         forallb (fun a => match kind_of env (snd a) with
                           | Some _ => true
                           | None => false
                           end) args
      then Some KObject else None
  | _ => None
  end.

(** A statement of the forms of the cells, and what is bound after it:
    - a blank line, a comment, a line magic;
    - an import from a module of the qiskit package, or of such a module;
    - an assignment of an expression of the forms above;
    - [x += e] where [x] holds the result of a call and [e] is one;
    - an expression of the forms above. *)
Definition check_stmt (env : gmap string kind) (s : stmt) : option (gmap string kind) :=
  match s with
  | SBlank | SComment _ | SMagic _ => Some env
  | SImport m =>
      if bool_decide (root_package m = "qiskit")
      then Some (<[root_package m := KModule]> env) else None
  | SFromImport m imported =>
      if bool_decide (root_package m = "qiskit")
      then Some (foldl (fun acc n => <[n := KSymbol]> acc) env imported) else None
  | SAssign x e => k ← kind_of env e; Some (<[x := k]> env)
  | SAugAssign x Add e =>
      match env !! x, kind_of env e with
      | Some KObject, Some KObject => Some env
      | _, _ => None
      end
  | SAugAssign _ _ _ => None
  | SExpr e => _ ← kind_of env e; Some env
  end.

(** Whether every statement of a program is of these forms, from a kernel
    where nothing is bound. *)
Definition well_formed (p : list stmt) : bool :=
  match foldl (fun acc s => env ← acc; check_stmt env s) (Some ∅) p with
  | Some _ => true
  | None => false
  end.





End Forms.

(* ===================================================================== *)
(** ** The appending idiom of the first cell *)
(* ===================================================================== *)

Module Idiom.
Import Pulse Tutorial.

(** A backend whose default measurement is the one the notebook builds by
    hand. *)
Definition sample_backend : Backend :=
  mkBackend 2 (fun _ => stimulus) duration.

(** The measurement added by [sched += measure([0, 1], backend) << sched.duration]
    starts when the last instruction of [sched] ends. *)
Definition starts_at_end (backend : Backend) (sched0 : Schedule) : Prop :=
  add_measurement backend sched0 =
  sched0 ++ shift (duration_of sched0) (measure [0%nat; 1%nat] backend None).

(** No instruction of [old] is still running when one of [new] starts. *)
Definition never_overlaps (old new : Schedule) : Prop :=
  forall a b, a ∈ old -> b ∈ new -> stop_time a <= start_time b.

End Idiom.

(* ===================================================================== *)
(** ** Running the cells in a kernel *)
(* ===================================================================== *)

Module Kernel.
Import Syntax Analysis Shape Pulse Run.

(** The names a statement reads when it runs: those of its expression, and
    for [x += e] the variable [x] as well. *)
Definition reads (s : stmt) : list string :=
  match s with
  | SAssign _ e | SExpr e => names e
  | SAugAssign x _ e => x :: names e
  | _ => []
  end.

(** The names a statement binds, as [exec] does. *)
Definition binds (s : stmt) : list string :=
  match s with
  | SFromImport _ imported => imported
  | SImport m => [root_package m]
  | SAssign x _ | SAugAssign x _ _ => [x]
  | _ => []
  end.

(** The names a program reads before anything has bound them, [bound] being
    the names bound when it starts. *)
Fixpoint unbound_reads (bound : list string) (p : list stmt) : list string :=
  match p with
  | [] => []
  | s :: rest =>
      filter (fun x => x ∉ bound) (reads s) ++ unbound_reads (binds s ++ bound) rest
  end.

(** Whether a program runs to its end. *)
Definition succeeds (b : Backend) (p : list stmt) (env : gmap string value) : bool :=
  match run b p env with Some _ => true | None => false end.

(** The variables a program assigns, each once, in order. *)
Definition assigned (p : list stmt) : list string :=
  remove_dups (flat_map (fun s => match s with
                                  | SAssign x _ | SAugAssign x _ _ => [x]
                                  | _ => []
                                  end) p).

(** The names the code cells bind: the imported symbols and the variables. *)
Definition notebook_names : list string :=
  ["IBMQ"; "Schedule"; "measure_all"; "FakeAlmaden"; "backend"; "measure"; "sched";
   "MeasureChannel"; "AcquireChannel"; "MemorySlot"; "GaussianSquare"; "Acquire";
   "duration"; "measure_tx"; "acquire"; "measure_rx"; "measure_sched"; "qiskit"].

(** The code cells up to the [k]-th (counted from 0), and that cell. *)
Definition upto (k : nat) : list stmt := concat (take (S k) parsed_cells).
Definition cell_at (k : nat) : list stmt := default [] (parsed_cells !! k).

End Kernel.

(* ===================================================================== *)
(** ** The hand-built measurement and the measurement maps *)
(* ===================================================================== *)

Module Coverage.
Import Syntax Pulse MeasMap.

(** The measurement map the ninth cell imagines for the hand-built example,
    and the one it prints first. *)
Definition meas_map_hand : expr := EList [EList [EInt 0; EInt 1; EInt 2]].

(** The qubits a schedule acquires: the indices of its acquire channels. *)
Definition acquired_qubits (s : Schedule) : list nat :=
  map (fun cm => channel_index (fst cm)) (acquisitions s).

(** A schedule has all the acquisitions a measurement map requires when,
    with every qubit it acquires, it acquires the qubits of that qubit's
    groups (ninth cell: add all the acquire pulses required by the backend). *)
Definition complete_for (m : list (list nat)) (s : Schedule) : Prop :=
  Forall (fun q => Forall (fun p => p ∈ acquired_qubits s) (acquired_with m q))
         (acquired_qubits s).

Global Instance complete_for_dec (m : list (list nat)) (s : Schedule) :
  Decision (complete_for m s).
Proof. unfold complete_for. apply _. Defined.

(** [sched + (extra << sched.duration)]: the idiom of the first cell, for any
    schedule [extra] to be added at the end of [sched]. *)
Definition add_to_end (sched0 extra : Schedule) : Schedule :=
  append sched0 (shift (duration_of sched0) extra).

(** Two timed instructions overlap in time: each starts before the other
    ends. *)
Definition overlaps (a b : Z * instruction) : Prop :=
  start_time a < stop_time b /\ start_time b < stop_time a.

(** The channels [measure_all] uses for the qubits below [n], two for each
    qubit, in the order of the instructions. *)
Definition readout_channels (n : nat) : list channel :=
  flat_map (fun q => [MeasureChannel q; AcquireChannel q]) (seq 0 n).

End Coverage.

(* ===================================================================== *)
(** ** The parsed cells are the notebook's *)
(* ===================================================================== *)

Module SyntaxFacts.
Import Text Syntax.

(** Printing the parsed cells gives the notebook's code cells back. *)
Lemma parsed_cells_print :
  map (map show_stmt) parsed_cells = map source code_cells.
Proof. vm_compute. reflexivity. Qed.

Lemma program_prints : map show_stmt program = code_lines.
Proof. vm_compute. reflexivity. Qed.

Lemma snippet0_prints :
  map show_stmt snippet0 = take 3 (drop 12 (source cell0)).
Proof. vm_compute. reflexivity. Qed.

Lemma meas_maps_print :
  source cell8 !! 11%nat = Some ("Out: " +:+ show_expr meas_map_all) /\
  source cell8 !! 17%nat = Some ("Out: " +:+ show_expr meas_map_split).
Proof. vm_compute. split; reflexivity. Qed.

End SyntaxFacts.

(* ===================================================================== *)
(** ** Properties of the schedule operations *)
(* ===================================================================== *)

Module PulseFacts.
Import Pulse.

Lemma foldr_max_nonneg (l : list Z) : 0 <= foldr Z.max 0 l.
Proof. induction l as [|x l IH]; simpl; lia. Qed.

Lemma foldr_max_ge (l : list Z) (x : Z) : x ∈ l -> x <= foldr Z.max 0 l.
Proof.
  induction l as [|y l IH]; intros Hin.
  - inversion Hin.
  - apply elem_of_cons in Hin as [-> | Hin]; simpl; [lia|].
    specialize (IH Hin). lia.
Qed.

Lemma ch_stop_time_nonneg (s : Schedule) (chans : list channel) :
  0 <= ch_stop_time s chans.
Proof. apply foldr_max_nonneg. Qed.

Lemma duration_of_nonneg (s : Schedule) : 0 <= duration_of s.
Proof. apply foldr_max_nonneg. Qed.

(** No instruction of a schedule ends after the schedule's duration. *)
Lemma stop_time_le_duration (s : Schedule) (ti : Z * instruction) :
  ti ∈ s -> stop_time ti <= duration_of s.
Proof.
  intros Hin. apply foldr_max_ge. apply list_elem_of_fmap. eauto.
Qed.

Lemma ch_stop_time_nil (s : Schedule) : ch_stop_time s [] = 0.
Proof.
  unfold ch_stop_time.
  replace (filter (fun ti => inst_channel (snd ti) ∈ []) s) with (@nil (Z * instruction)).
  - reflexivity.
  - induction s as [|ti s IH]; [reflexivity|].
    rewrite filter_cons_False; [exact IH | apply not_elem_of_nil].
Qed.

Lemma shift_0 (s : Schedule) : shift 0 s = s.
Proof.
  unfold shift. induction s as [|[t i] s IH]; simpl; [reflexivity|].
  rewrite IH. f_equal. f_equal. lia.
Qed.

Lemma shift_shift (a b : Z) (s : Schedule) : shift b (shift a s) = shift (a + b) s.
Proof.
  unfold shift. induction s as [|[t i] s IH]; simpl; [reflexivity|].
  rewrite IH. f_equal. f_equal. lia.
Qed.

Lemma channels_shift (t : Z) (s : Schedule) : channels (shift t s) = channels s.
Proof.
  unfold channels, shift. induction s as [|ti s IH]; simpl; [reflexivity|].
  now rewrite IH.
Qed.

Lemma elem_of_shift (t : Z) (s : Schedule) (ti : Z * instruction) :
  ti ∈ shift t s -> exists ti0, ti0 ∈ s /\ ti = (fst ti0 + t, snd ti0).
Proof.
  unfold shift. intros Hin. apply list_elem_of_fmap in Hin as (ti0 & -> & Hin0).
  eauto.
Qed.

Lemma append_unfold (s other : Schedule) :
  append s other = s ++ shift (ch_stop_time s (common_channels s other)) other.
Proof. reflexivity. Qed.

Lemma common_channels_disjoint (s other : Schedule) :
  (forall c, c ∈ channels other -> c ∉ channels s) ->
  common_channels s other = [].
Proof.
  unfold common_channels. generalize (channels other) as l.
  induction l as [|c l IH]; intros Hdisj; [reflexivity|].
  rewrite filter_cons_False.
  - apply IH. intros c' Hc'. apply Hdisj. now apply list_elem_of_further.
  - apply Hdisj. apply list_elem_of_here.
Qed.

(** Appending a schedule on channels the receiving schedule does not use
    leaves its instructions at their own start times. *)
Lemma append_disjoint (s other : Schedule) :
  (forall c, c ∈ channels other -> c ∉ channels s) ->
  append s other = s ++ other.
Proof.
  intros Hdisj. rewrite append_unfold, common_channels_disjoint by exact Hdisj.
  now rewrite ch_stop_time_nil, shift_0.
Qed.

Lemma append_nil_l (other : Schedule) : append [] other = other.
Proof. apply (append_disjoint [] other). intros c _. apply not_elem_of_nil. Qed.

(** Every instruction of a backend measurement starts at time 0. *)
Lemma measure_starts_at_0 (qubits : list nat) (backend : Backend)
    (slots : option (gmap nat nat)) (ti : Z * instruction) :
  ti ∈ measure qubits backend slots -> start_time ti = 0.
Proof.
  unfold measure. induction qubits as [|q qs IH]; simpl; intros Hin.
  - inversion Hin.
  - apply elem_of_cons in Hin as [-> | Hin]; [reflexivity|].
    apply elem_of_cons in Hin as [-> | Hin]; [reflexivity|].
    now apply IH.
Qed.

End PulseFacts.

(* ===================================================================== *)
(** ** Running the parsed cells gives the definitions of [Tutorial] *)
(* ===================================================================== *)

Module RunFacts.
Import Syntax Pulse Run.

Lemma run_program (b : Backend) :
  value_after b program ∅ "backend" = Some (VBackend (Tutorial.backend b)) /\
  value_after b program ∅ "sched" = Some (VSchedule (Tutorial.sched b)) /\
  value_after b program ∅ "duration" = Some (VInt Tutorial.duration) /\
  value_after b program ∅ "measure_tx" = Some (VSchedule Tutorial.measure_tx) /\
  value_after b program ∅ "acquire" = Some (VAcquire Tutorial.duration) /\
  value_after b program ∅ "measure_rx" = Some (VSchedule Tutorial.measure_rx) /\
  value_after b program ∅ "measure_sched" = Some (VSchedule Tutorial.measure_sched).
Proof. repeat split; vm_compute; reflexivity. Qed.

(** The third cell, run after the second. *)
Lemma run_measure_all (b : Backend) :
  value_after b (code1 ++ code2) ∅ "sched" = Some (VSchedule (Tutorial.sched_all b)).
Proof. vm_compute. reflexivity. Qed.

(** The new schedule of the third cell is empty, so what [+=] gives is the
    measurement of all the qubits. *)
Lemma sched_all_measure_all (b : Backend) : Tutorial.sched_all b = measure_all b.
Proof. apply PulseFacts.append_nil_l. Qed.

(** The snippet of the first cell, run where [sched] holds a schedule and
    [backend] the backend. *)
Lemma run_snippet0 (b : Backend) (sched0 : Schedule) :
  value_after b snippet0
    (<["sched" := VSchedule sched0]> (<["backend" := VBackend b]> ∅)) "sched"
  = Some (VSchedule (Tutorial.add_measurement b sched0)).
Proof. vm_compute. reflexivity. Qed.

End RunFacts.

(* ===================================================================== *)
(** ** What the forms exclude *)
(* ===================================================================== *)

Module FormsFacts.
Import Syntax Forms.

(** Programs that are not of the forms of the cells: a call of something that
    is not imported, a call of a literal, an import from another package,
    [+=] on an integer, an imported symbol passed as an argument, the method
    of an imported symbol, a method other than [draw], a sum with a literal. *)
Lemma well_formed_refuses :
  well_formed [SAssign "x" (call "eval" [pos (EStr "1")])] = false /\
  well_formed [SExpr (ECall (EInt 3) [pos (EName "nope")])] = false /\
  well_formed [SFromImport "os" ["system"]] = false /\
  well_formed [SImport "os.path"] = false /\
  well_formed [SAssign "n" (EInt 1); SAugAssign "n" Add (EInt 1)] = false /\
  well_formed [SFromImport "qiskit" ["f"]; SAssign "x" (call "f" [pos (EName "f")])] = false /\
  well_formed [SFromImport "qiskit" ["f"]; SExpr (ECall (EAttr (EName "f") "draw") [])] = false /\
  well_formed [SFromImport "qiskit" ["f"]; SAssign "x" (call "f" []);
               SExpr (ECall (EAttr (EName "x") "show") [])] = false /\
  well_formed [SFromImport "qiskit" ["f"]; SAssign "x" (call "f" []);
               SAssign "y" (EBinOp Add (EName "x") (EInt 1))] = false /\
  well_formed [SFromImport "qiskit" ["f"]; SAssign "x" (call "f" []);
               SExpr (ECall (EAttr (EName "x") "draw") [])] = true.
Proof. repeat split; vm_compute; reflexivity. Qed.

End FormsFacts.

(* ===================================================================== *)
(** ** The measurement map of the ninth cell *)
(* ===================================================================== *)

Module MeasMapFacts.
Import MeasMap.

Lemma elem_of_acquired_with (m : list (list nat)) (a b : nat) :
  b ∈ acquired_with m a <-> exists g, g ∈ m /\ a ∈ g /\ b ∈ g.
Proof.
  unfold acquired_with, groups_of.
  induction m as [|g m IH]; simpl.
  - split; [intros H; inversion H | intros (g & Hg & _); inversion Hg].
  - destruct (decide (a ∈ g)) as [Ha | Ha].
    + rewrite filter_cons_True by exact Ha. simpl.
      rewrite elem_of_app, IH. split.
      * intros [Hb | (g' & Hg' & H')].
        -- exists g. split; [apply list_elem_of_here | auto].
        -- exists g'. split; [now apply list_elem_of_further | exact H'].
      * intros (g' & Hg' & Ha' & Hb').
        apply elem_of_cons in Hg' as [-> | Hg']; [now left|].
        right. exists g'. auto.
    + rewrite filter_cons_False by exact Ha. rewrite IH. split.
      * intros (g' & Hg' & H'). exists g'. split; [now apply list_elem_of_further | exact H'].
      * intros (g' & Hg' & Ha' & Hb').
        apply elem_of_cons in Hg' as [-> | Hg']; [contradiction|].
        exists g'. auto.
Qed.

End MeasMapFacts.

(* ===================================================================== *)
(** ** Statements about the notebook *)
(* ===================================================================== *)

Import Text Syntax Analysis Pulse Run MeasMap Shape Forms Idiom.

(** C1: in the measurement map [[0], [1], [2], [3, 4]] of the notebook each
    inner list groups qubits that must be acquired together: qubits 0, 1 and
    2 each form a group of their own and can be acquired independently,
    qubits 3 and 4 share a group and must be acquired together; and for every
    measurement map and every pair of qubits, the pair must be acquired
    together exactly when some inner list of the map contains both. *)
Theorem C1_meas_map_groups :
  source cell8 !! 17%nat = Some ("Out: " +:+ show_expr meas_map_split) /\
  read_meas_map meas_map_split = Some meas_map /\
  (groups_of meas_map 0 = [[0%nat]] /\ groups_of meas_map 1 = [[1%nat]] /\
   groups_of meas_map 2 = [[2%nat]]) /\
  (independent meas_map 0 = true /\ independent meas_map 1 = true /\
   independent meas_map 2 = true) /\
  (groups_of meas_map 3 = [[3; 4]%nat] /\ groups_of meas_map 4 = [[3; 4]%nat]) /\
  (acquired_together meas_map 3 4 = true /\ acquired_together meas_map 4 3 = true /\
   independent meas_map 3 = false /\ independent meas_map 4 = false) /\
  (forall (m : list (list nat)) (a b : nat),
     acquired_together m a b = true <-> exists g, g ∈ m /\ a ∈ g /\ b ∈ g).
Proof.
  split; [apply SyntaxFacts.meas_maps_print|].
  split; [vm_compute; reflexivity|].
  split; [repeat split; vm_compute; reflexivity|].
  split; [repeat split; vm_compute; reflexivity|].
  split; [repeat split; vm_compute; reflexivity|].
  split; [repeat split; vm_compute; reflexivity|].
  intros m a b. unfold acquired_together.
  rewrite bool_decide_eq_true. apply MeasMapFacts.elem_of_acquired_with.
Qed.

(** C2: every invocation of [measure] in the notebook (the fifth cell and the
    snippet of the first cell) takes a list of qubit indices and the backend,
    and optionally the mapping [qubit_mem_slots]; called with qubits=[0] and
    qubit_mem_slots={0: 1}, the schedule it gives measures qubit 0 into
    memory slot 1, not into the default slot 0. *)
Theorem C2_measure_invocations :
  map show_stmt program = code_lines /\
  map show_stmt snippet0 = take 3 (drop 12 (source cell0)) /\
  map (fun args => bind_args measure_params args []) (calls_of "measure" (program ++ snippet0)) =
    [Some [("qubits", EList [EInt 0]); ("backend", EName "backend");
           ("qubit_mem_slots", EDict [(EInt 0, EInt 1)])];
     Some [("qubits", EList [EInt 0; EInt 1]); ("backend", EName "backend")]] /\
  Forall (fun args => measure_call_ok args = true) (calls_of "measure" (program ++ snippet0)) /\
  (forall b : Backend,
     value_after b program ∅ "sched" = Some (VSchedule (Tutorial.sched b))) /\
  (forall b : Backend,
     acquisitions (Tutorial.sched b) = [(AcquireChannel 0, MemorySlot 1)] /\
     acquisitions (measure [0%nat] b None) = [(AcquireChannel 0, MemorySlot 0)]).
Proof.
  split; [exact SyntaxFacts.program_prints|].
  split; [exact SyntaxFacts.snippet0_prints|].
  split; [vm_compute; reflexivity|].
  split; [repeat constructor|].
  split.
  - intros b. apply (RunFacts.run_program b).
  - intros b. split; reflexivity.
Qed.

(** C3: the command [Acquire] is constructed from a duration alone, and every
    application of the constructed command supplies exactly one acquire
    channel with one memory slot: the pairs (AcquireChannel(0),
    MemorySlot(0)) and (AcquireChannel(1), MemorySlot(1)). *)
Theorem C3_acquire_applications :
  map show_stmt program = code_lines /\
  calls_of "Acquire" program = [[(None, EName "duration")]] /\
  int_args_of "Acquire" program = [[(None, Some 16000)]] /\
  map show_stmt (assignments_to "acquire" program) = ["acquire = Acquire(duration)"] /\
  Forall (fun args => length args = 2%nat) (calls_of "acquire" program) /\
  map parse_pair (calls_of "acquire" program) = [Some (0, 0); Some (1, 1)] /\
  (forall b : Backend,
     value_after b program ∅ "acquire" = Some (VAcquire 16000) /\
     value_after b program ∅ "measure_rx" = Some (VSchedule Tutorial.measure_rx)) /\
  Tutorial.measure_rx =
    [(0, AcquireInstruction 16000 (AcquireChannel 0) (MemorySlot 0));
     (0, AcquireInstruction 16000 (AcquireChannel 1) (MemorySlot 1))].
Proof.
  split; [exact SyntaxFacts.program_prints|].
  split; [vm_compute; reflexivity|].
  split; [vm_compute; reflexivity|].
  split; [vm_compute; reflexivity|].
  split; [repeat constructor|].
  split; [vm_compute; reflexivity|].
  split; [|vm_compute; reflexivity].
  intros b. destruct (RunFacts.run_program b) as (_ & _ & _ & _ & Hacq & Hrx & _).
  split; [exact Hacq | exact Hrx].
Qed.

(** C4: every GaussianSquare construction of the notebook is parameterized by
    exactly duration, amp, sigma and width; with duration = 16000 every pulse
    has width = duration - 50 = 15950, less than its duration, and the two
    stimulus pulses, for MeasureChannel(0) and MeasureChannel(1), have the
    same parameters. *)
Theorem C4_gaussian_square_parameters :
  map show_stmt program = code_lines /\
  (let args := [kw "duration" (EName "duration"); kw "amp" (EFloat "0.2");
                kw "sigma" (EInt 10);
                kw "width" (EBinOp Sub (EName "duration") (EInt 50))] in
   calls_of "GaussianSquare" program = [args; args]) /\
  Forall (fun args => map fst args = [Some "duration"; Some "amp"; Some "sigma"; Some "width"])
         (calls_of "GaussianSquare" program) /\
  Forall (fun args => exists d w : Z,
            int_arg "duration" args = Some d /\ int_arg "width" args = Some w /\
            d = 16000 /\ w = d - 50 /\ w = 15950 /\ w < d)
         (int_args_of "GaussianSquare" program) /\
  Tutorial.stimulus = mkGaussianSquare 16000 "0.2" 10 15950 /\
  width Tutorial.stimulus < pulse_duration Tutorial.stimulus /\
  Tutorial.measure_tx =
    [(0, Play Tutorial.stimulus (MeasureChannel 0));
     (0, Play Tutorial.stimulus (MeasureChannel 1))] /\
  (forall b : Backend,
     value_after b program ∅ "measure_tx" = Some (VSchedule Tutorial.measure_tx)).
Proof.
  split; [exact SyntaxFacts.program_prints|].
  split; [vm_compute; reflexivity|].
  split; [repeat constructor|].
  split.
  { repeat constructor; exists 16000, 15950; repeat split; vm_compute; reflexivity. }
  split; [reflexivity|].
  split; [vm_compute; reflexivity|].
  split; [vm_compute; reflexivity|].
  intros b. apply (RunFacts.run_program b).
Qed.



(** C6: no code cell handles errors (no try, except, raise or assertion
    occurs in any of them), and no code cell validates the measurement map:
    the ninth cell, a markdown cell, says that this is validated at assemble
    time, by the framework. *)
Theorem C6_no_error_handling :
  Forall (fun w => w ∉ error_keywords) code_words /\
  Forall (fun w => w ∉ validation_words) code_words /\
  map show_stmt program = code_lines /\
  is_code cell8 = false /\
  (exists line, source cell8 !! 22%nat = Some line /\
                contains "This is validated at assemble time." line = true).
Proof.
  split; [compute_done|].
  split; [compute_done|].
  split; [exact SyntaxFacts.program_prints|].
  split; [reflexivity|].
  eexists. split; [reflexivity|]. vm_compute. reflexivity.
Qed.

(** C7: every operation the code cells invoke (measure, measure_all,
    GaussianSquare, Acquire, MeasureChannel, AcquireChannel, MemorySlot,
    Schedule among them) is bound by an import from the qiskit package before
    it is called, or is a value made from such symbols; and the code cells
    define no function and no class. *)
Theorem C7_operations_imported :
  Forall (from_qiskit program) claimed_operations /\
  Forall (fun mn => root_package (fst mn) = "qiskit") (imports program) /\
  Forall (fun c => snd c <> [] /\ Forall (from_qiskit program) (snd c))
         (invoked_all ∅ program) /\
  map fst (invoked_all ∅ program) =
    ["FakeAlmaden"; "Schedule"; "measure_all"; "sched"; "measure";
     "GaussianSquare"; "GaussianSquare"; "MeasureChannel";
     "GaussianSquare"; "GaussianSquare"; "MeasureChannel";
     "Acquire"; "acquire"; "AcquireChannel"; "MemorySlot";
     "acquire"; "AcquireChannel"; "MemorySlot"; "measure_sched"] /\
  Forall (fun w => w ∉ definition_keywords) code_words /\
  map show_stmt program = code_lines.
Proof.
  split; [compute_done|].
  split; [compute_done|].
  split; [compute_done|].
  split; [vm_compute; reflexivity|].
  split; [compute_done|].
  exact SyntaxFacts.program_prints.
Qed.

(** C8: in measure_sched = measure_tx + measure_rx the four instructions are
    on four pairwise distinct channels, MeasureChannel(0), MeasureChannel(1),
    AcquireChannel(0) and AcquireChannel(1), so [+] leaves every instruction
    at time 0 and the four run at the same time, from 0 to 16000. *)
Theorem C8_measure_sched_simultaneous :
  channels Tutorial.measure_sched =
    [MeasureChannel 0; MeasureChannel 1; AcquireChannel 0; AcquireChannel 1] /\
  NoDup (channels Tutorial.measure_sched) /\
  common_channels Tutorial.measure_tx Tutorial.measure_rx = [] /\
  Tutorial.measure_sched = Tutorial.measure_tx ++ Tutorial.measure_rx /\
  Tutorial.measure_sched =
    [(0, Play Tutorial.stimulus (MeasureChannel 0));
     (0, Play Tutorial.stimulus (MeasureChannel 1));
     (0, AcquireInstruction 16000 (AcquireChannel 0) (MemorySlot 0));
     (0, AcquireInstruction 16000 (AcquireChannel 1) (MemorySlot 1))] /\
  Forall (fun ti => start_time ti = 0 /\ stop_time ti = 16000) Tutorial.measure_sched /\
  (forall b : Backend,
     value_after b program ∅ "measure_sched" = Some (VSchedule Tutorial.measure_sched)).
Proof.
  split; [vm_compute; reflexivity|].
  split; [compute_done|].
  split; [vm_compute; reflexivity|].
  split.
  { apply PulseFacts.append_disjoint. intros c Hrx Htx.
    revert Hrx. apply (bool_decide_unpack (c ∉ channels Tutorial.measure_rx)).
    apply list_elem_of_lookup_1 in Htx as [i Hi].
    destruct i as [|[|[|]]]; vm_compute in Hi; try discriminate Hi;
      injection Hi as <-; vm_compute; exact I. }
  split; [vm_compute; reflexivity|].
  split; [repeat constructor|].
  intros b. apply (RunFacts.run_program b).
Qed.

(** C10: in the hand-built example every acquire channel is paired with the
    memory slot of the same index, AcquireChannel(i) with MemorySlot(i) for
    i = 0 and i = 1, so the outcome of qubit i goes to memory slot i: the
    identity mapping, which is what [measure] uses by default and what its
    option [qubit_mem_slots], {0: 1} in the notebook, overrides. *)
Theorem C10_identity_memory_slots :
  map show_stmt program = code_lines /\
  map parse_pair (calls_of "acquire" program) = [Some (0, 0); Some (1, 1)] /\
  acquisitions Tutorial.measure_sched =
    [(AcquireChannel 0, MemorySlot 0); (AcquireChannel 1, MemorySlot 1)] /\
  Forall (fun cm => channel_index (fst cm) = slot_index (snd cm))
         (acquisitions Tutorial.measure_sched) /\
  (forall q : nat, mem_slot_of None q = MemorySlot q) /\
  mem_slot_of (Some Tutorial.qubit_mem_slots) 0 = MemorySlot 1 /\
  (forall b : Backend,
     acquisitions (measure [0%nat] b None) = [(AcquireChannel 0, MemorySlot 0)] /\
     acquisitions (measure [0%nat] b (Some Tutorial.qubit_mem_slots)) =
       [(AcquireChannel 0, MemorySlot 1)]).
Proof.
  split; [exact SyntaxFacts.program_prints|].
  split; [vm_compute; reflexivity|].
  split; [vm_compute; reflexivity|].
  split; [repeat constructor|].
  split; [reflexivity|].
  split; [vm_compute; reflexivity|].
  intros b. split; reflexivity.
Qed.

(** C9, as stated, fails: for the schedule measure_sched of the notebook
    itself, whose duration is 16000, the measurement added by
    [sched += measure([0, 1], backend) << sched.duration] starts at 32000,
    not when the last instruction of the schedule ends.  The schedule has
    instructions on the channels the measurement uses, and [+=] appends after
    them what [<<] has already delayed. *)
Lemma C9_counterexample :
  duration_of Tutorial.measure_sched = 16000 /\
  map start_time
      (drop (length Tutorial.measure_sched)
            (Tutorial.add_measurement sample_backend Tutorial.measure_sched))
    = [32000; 32000; 32000; 32000] /\
  ~ starts_at_end sample_backend Tutorial.measure_sched.
Proof.
  split; [vm_compute; reflexivity|].
  split; [vm_compute; reflexivity|].
  intros H.
  apply (f_equal (fun s : Schedule => map start_time (drop 4 s))) in H.
  vm_compute in H. discriminate H.
Qed.

(** C9, amended: for every schedule sched, the idiom
    [sched += measure([0, 1], backend) << sched.duration] delays the
    measurement by sched.duration and appends it: the measurement starts no
    earlier than the last instruction of sched ends, so it never overlaps in
    time with an instruction already in sched; it starts exactly then when
    sched has no instruction on the channels of the measurement. *)
Theorem C9_measurement_after_sched (b : Backend) (sched0 : Schedule) :
  let m := measure [0%nat; 1%nat] b None in
  let wait := ch_stop_time sched0 (common_channels sched0 m) in
  map show_stmt snippet0 = take 3 (drop 12 (source cell0)) /\
  value_after b snippet0
    (<["sched" := VSchedule sched0]> (<["backend" := VBackend b]> ∅)) "sched"
    = Some (VSchedule (Tutorial.add_measurement b sched0)) /\
  Tutorial.add_measurement b sched0 = sched0 ++ shift (duration_of sched0 + wait) m /\
  0 <= wait /\
  Forall (fun ti => duration_of sched0 <= start_time ti)
         (drop (length sched0) (Tutorial.add_measurement b sched0)) /\
  never_overlaps sched0 (drop (length sched0) (Tutorial.add_measurement b sched0)) /\
  ((forall c, c ∈ channels m -> c ∉ channels sched0) -> starts_at_end b sched0).
Proof.
  intros m wait.
  assert (Hadd : Tutorial.add_measurement b sched0
                 = sched0 ++ shift (duration_of sched0 + wait) m).
  { unfold Tutorial.add_measurement, Tutorial.backend.
    rewrite PulseFacts.append_unfold. unfold common_channels.
    rewrite PulseFacts.channels_shift, PulseFacts.shift_shift. reflexivity. }
  assert (Hwait : 0 <= wait) by apply PulseFacts.ch_stop_time_nonneg.
  assert (Hstart : forall ti, ti ∈ shift (duration_of sched0 + wait) m ->
                              duration_of sched0 <= start_time ti).
  { intros ti Hti. apply PulseFacts.elem_of_shift in Hti as (ti0 & Hin0 & ->).
    apply PulseFacts.measure_starts_at_0 in Hin0.
    unfold start_time in *. simpl. lia. }
  split; [exact SyntaxFacts.snippet0_prints|].
  split; [apply RunFacts.run_snippet0|].
  split; [exact Hadd|].
  split; [exact Hwait|].
  rewrite Hadd, drop_app_length.
  split; [apply Forall_forall; exact Hstart|].
  split.
  - intros old new Hold Hnew.
    pose proof (PulseFacts.stop_time_le_duration _ _ Hold).
    specialize (Hstart _ Hnew). lia.
  - intros Hdisj. unfold starts_at_end. rewrite Hadd. do 2 f_equal.
    unfold wait. rewrite PulseFacts.common_channels_disjoint by exact Hdisj.
    rewrite PulseFacts.ch_stop_time_nil. lia.
Qed.

(** C9, amended, at a schedule with one pulse on MeasureChannel(2), a channel
    the measurement of qubits 0 and 1 does not use. *)
Lemma C9_measurement_after_sched_witness :
  starts_at_end sample_backend (play Tutorial.stimulus (MeasureChannel 2)).
Proof.
  apply (C9_measurement_after_sched sample_backend
           (play Tutorial.stimulus (MeasureChannel 2))).
  apply Forall_forall. apply (bool_decide_unpack _). vm_compute. exact I.
Defined.

(* ===================================================================== *)
(** ** A fact on lists *)
(* ===================================================================== *)

Module KernelFacts.

Lemma elem_of_flat_map {A B : Type} (f : A -> list B) (l : list A) (y : B) :
  y ∈ flat_map f l <-> exists x, x ∈ l /\ y ∈ f x.
Proof.
  rewrite list_elem_of_In, in_flat_map. split.
  - intros (x & Hx & Hy). exists x. now rewrite !list_elem_of_In.
  - intros (x & Hx & Hy). exists x. now rewrite <- !list_elem_of_In.
Qed.

End KernelFacts.

(* ===================================================================== *)
(** ** Schedules, acquisitions and measurement maps *)
(* ===================================================================== *)

Module CoverageFacts.
Import Syntax Pulse MeasMap Coverage.

Lemma foldr_max_app (l k : list Z) :
  foldr Z.max 0 (l ++ k) = Z.max (foldr Z.max 0 l) (foldr Z.max 0 k).
Proof.
  induction l as [|x l IH]; simpl.
  - pose proof (PulseFacts.foldr_max_nonneg k). lia.
  - rewrite IH. lia.
Qed.

Lemma duration_of_app (s t : Schedule) :
  duration_of (s ++ t) = Z.max (duration_of s) (duration_of t).
Proof. unfold duration_of. rewrite map_app. apply foldr_max_app. Qed.

(** A schedule with a positive duration has an instruction that ends last. *)
Lemma duration_attained (s : Schedule) :
  0 < duration_of s -> exists ti, ti ∈ s /\ stop_time ti = duration_of s.
Proof.
  unfold duration_of. induction s as [|ti s IH]; simpl; [lia|]. intros Hpos.
  destruct (Z_le_gt_dec (foldr Z.max 0 (map stop_time s)) (stop_time ti)) as [Hle | Hgt].
  - exists ti. split; [apply list_elem_of_here | lia].
  - destruct IH as (tj & Hin & Hstop); [pose proof (PulseFacts.foldr_max_nonneg (map stop_time s)); lia|].
    exists tj. split; [now apply list_elem_of_further | lia].
Qed.

Lemma acquisitions_app (s t : Schedule) :
  acquisitions (s ++ t) = acquisitions s ++ acquisitions t.
Proof. unfold acquisitions. apply omap_app. Qed.

Lemma acquisitions_shift (time : Z) (s : Schedule) :
  acquisitions (shift time s) = acquisitions s.
Proof.
  unfold acquisitions, shift. induction s as [|[t i] s IH]; [reflexivity|].
  destruct i; simpl; [exact IH | f_equal; exact IH].
Qed.

Lemma append_app_shift (s other : Schedule) :
  exists wait, 0 <= wait /\ append s other = s ++ shift wait other.
Proof.
  exists (ch_stop_time s (common_channels s other)).
  split; [apply PulseFacts.ch_stop_time_nonneg | reflexivity].
Qed.

(** Appending keeps what was there and acquires what is appended. *)
Lemma acquisitions_append (s other : Schedule) :
  acquisitions (append s other) = acquisitions s ++ acquisitions other.
Proof.
  destruct (append_app_shift s other) as (wait & _ & ->).
  now rewrite acquisitions_app, acquisitions_shift.
Qed.

Lemma channels_measure (qubits : list nat) (b : Backend) (slots : option (gmap nat nat)) :
  channels (measure qubits b slots)
  = flat_map (fun q => [MeasureChannel q; AcquireChannel q]) qubits.
Proof.
  unfold channels, measure. induction qubits as [|q qs IH]; simpl; [reflexivity|].
  now rewrite IH.
Qed.

Lemma acquisitions_measure_default (qubits : list nat) (b : Backend) :
  acquisitions (measure qubits b None)
  = map (fun q => (AcquireChannel q, MemorySlot q)) qubits.
Proof.
  unfold acquisitions, measure. induction qubits as [|q qs IH]; [reflexivity|].
  simpl. f_equal. exact IH.
Qed.

Lemma acquired_qubits_measure_default (qubits : list nat) (b : Backend) :
  acquired_qubits (measure qubits b None) = qubits.
Proof.
  unfold acquired_qubits. rewrite acquisitions_measure_default.
  induction qubits as [|q qs IH]; simpl; [reflexivity | now rewrite IH].
Qed.

Lemma elem_of_readout (qubits : list nat) (c : channel) :
  c ∈ flat_map (fun q => [MeasureChannel q; AcquireChannel q]) qubits <->
  channel_index c ∈ qubits.
Proof.
  rewrite KernelFacts.elem_of_flat_map. split.
  - intros (q & Hq & Hc).
    apply elem_of_cons in Hc as [-> | Hc]; [exact Hq|].
    apply elem_of_cons in Hc as [-> | Hc]; [exact Hq|].
    now apply not_elem_of_nil in Hc.
  - intros Hq. exists (channel_index c). split; [exact Hq|].
    destruct c; simpl; [apply list_elem_of_here|].
    apply list_elem_of_further, list_elem_of_here.
Qed.

Lemma NoDup_readout (qubits : list nat) :
  NoDup qubits -> NoDup (flat_map (fun q => [MeasureChannel q; AcquireChannel q]) qubits).
Proof.
  induction 1 as [|q qs Hq Hqs IH]; simpl; [apply NoDup_nil_2|].
  apply NoDup_cons. split.
  - intros Hin. apply elem_of_cons in Hin as [Heq | Hin]; [discriminate Heq|].
    apply elem_of_readout in Hin. exact (Hq Hin).
  - apply NoDup_cons. split; [|exact IH].
    intros Hin. apply elem_of_readout in Hin. exact (Hq Hin).
Qed.

Lemma length_readout (qubits : list nat) :
  length (flat_map (fun q => [MeasureChannel q; AcquireChannel q]) qubits)
  = (2 * length qubits)%nat.
Proof. induction qubits as [|q qs IH]; simpl; [reflexivity | rewrite IH; lia]. Qed.

(** A schedule has the acquisitions a map requires exactly when it acquires
    none or all of the qubits of every group of the map. *)
Lemma complete_for_groups (m : list (list nat)) (s : Schedule) :
  complete_for m s <->
  forall g, g ∈ m ->
    (forall q, q ∈ g -> q ∉ acquired_qubits s) \/
    (forall q, q ∈ g -> q ∈ acquired_qubits s).
Proof.
  unfold complete_for. rewrite Forall_forall. split.
  - intros Hall g Hg.
    destruct (decide (Exists (fun q => q ∈ acquired_qubits s) g)) as [Hex | Hnex].
    + right. intros p Hp. apply Exists_exists in Hex as (q & Hq & Hacq).
      specialize (Hall q Hacq). rewrite Forall_forall in Hall. apply Hall.
      apply MeasMapFacts.elem_of_acquired_with. exists g. auto.
    + left. intros q Hq Hacq. apply Hnex. apply Exists_exists. eauto.
  - intros Hgroups q Hacq. apply Forall_forall. intros p Hp.
    apply MeasMapFacts.elem_of_acquired_with in Hp as (g & Hg & Hqg & Hpg).
    destruct (Hgroups g Hg) as [Hnone | Hall]; [|now apply Hall].
    exfalso. exact (Hnone q Hqg Hacq).
Qed.

End CoverageFacts.

(* ===================================================================== *)
(** ** Further properties of the notebook's code *)
(* ===================================================================== *)

Import Kernel Coverage.

(** X1: run from the top in a fresh kernel, the code cells never read a name
    that no earlier statement has bound, and every prefix of the cells runs
    to its end.  Run alone in a fresh kernel, the first, fourth and last code
    cells run; the others stop at a name an earlier cell binds: the second at
    Schedule, measure_all and backend, the third at backend, the fifth at
    Acquire, duration, AcquireChannel and MemorySlot, the sixth at measure_tx
    and measure_rx. *)
Theorem X1_cells_read_bound_names (b : Backend) :
  unbound_reads [] program = [] /\
  Forall (fun k => succeeds b (upto k) ∅ = true) (seq 0 (length parsed_cells)) /\
  map (fun c => remove_dups (unbound_reads [] c)) parsed_cells =
    [[]; ["Schedule"; "measure_all"; "backend"]; ["backend"]; [];
     ["Acquire"; "duration"; "AcquireChannel"; "MemorySlot"];
     ["measure_tx"; "measure_rx"]; []] /\
  map (fun c => succeeds b c ∅) parsed_cells =
    [true; false; false; true; false; false; true].
Proof.
  split; [vm_compute; reflexivity|].
  split; [repeat (apply Forall_cons_2; [vm_compute; reflexivity|]); apply Forall_nil_2|].
  split; vm_compute; reflexivity.
Qed.

(** X3: every code cell can be run again: after a cell has run, running it a
    second time leaves every variable and imported name with the value it
    had, and so does running the whole notebook twice; the cells that use
    [+=] first assign the variable with [=].  The snippet of the first cell
    is different: each run of it adds a measurement to [sched]. *)
Theorem X3_cells_rerun (b : Backend) :
  remove_dups (flat_map binds program) = notebook_names /\
  Forall (fun k =>
            Forall (fun x => value_after b (upto k ++ cell_at k) ∅ x
                             = value_after b (upto k) ∅ x)
                   notebook_names)
         [0; 1; 2; 3; 4; 5; 6]%nat /\
  length parsed_cells = 7%nat /\
  Forall (fun x => value_after b (program ++ program) ∅ x = value_after b program ∅ x)
         notebook_names /\
  (forall sched0 : Schedule,
     value_after b snippet0
       (<["sched" := VSchedule sched0]> (<["backend" := VBackend b]> ∅)) "sched"
       = Some (VSchedule (Tutorial.add_measurement b sched0)) /\
     (length sched0 < length (Tutorial.add_measurement b sched0))%nat).
Proof.
  split; [vm_compute; reflexivity|].
  split.
  { repeat (apply Forall_cons_2;
            [repeat (apply Forall_cons_2; [vm_compute; reflexivity|]); apply Forall_nil_2|]).
    apply Forall_nil_2. }
  split; [reflexivity|].
  split.
  { repeat (apply Forall_cons_2; [vm_compute; reflexivity|]). apply Forall_nil_2. }
  intros sched0. split; [apply RunFacts.run_snippet0|].
  unfold Tutorial.add_measurement.
  destruct (CoverageFacts.append_app_shift sched0
              (shift (duration_of sched0)
                     (measure [0%nat; 1%nat] (Tutorial.backend b) None)))
    as (wait & _ & ->).
  rewrite length_app. unfold shift. rewrite !length_map. simpl. lia.
Qed.

(** X4: to be acquired together is a symmetric relation on the qubits, and in
    a measurement map with one group it holds exactly between the members of
    that group; so in the map [[0, 1, 2, 3, 4]], which the ninth cell prints
    first, every two of the five qubits must be acquired together and none of
    them can be acquired independently. *)
Theorem X4_acquired_together_one_group :
  (forall (m : list (list nat)) (a b : nat),
     acquired_together m a b = acquired_together m b a) /\
  (forall (g : list nat) (a b : nat),
     acquired_together [g] a b = true <-> a ∈ g /\ b ∈ g) /\
  source cell8 !! 11%nat = Some ("Out: " +:+ show_expr meas_map_all) /\
  read_meas_map meas_map_all = Some [[0; 1; 2; 3; 4]%nat] /\
  Forall (fun a => Forall (fun b => acquired_together [[0; 1; 2; 3; 4]%nat] a b = true)
                          [0; 1; 2; 3; 4]%nat)
         [0; 1; 2; 3; 4]%nat /\
  Forall (fun q => independent [[0; 1; 2; 3; 4]%nat] q = false) [0; 1; 2; 3; 4]%nat.
Proof.
  assert (Hiff : forall (m : list (list nat)) (a b : nat),
            acquired_together m a b = true <-> exists g, g ∈ m /\ a ∈ g /\ b ∈ g).
  { intros m a b. unfold acquired_together. rewrite bool_decide_eq_true.
    apply MeasMapFacts.elem_of_acquired_with. }
  split.
  { intros m a b. apply eq_true_iff_eq. rewrite !Hiff.
    split; intros (g & Hg & H1 & H2); exists g; auto. }
  split.
  { intros g a b. rewrite Hiff. split.
    - intros (g' & Hg' & Ha & Hb). apply list_elem_of_singleton in Hg' as ->. auto.
    - intros [Ha Hb]. exists g. split; [apply list_elem_of_here | auto]. }
  split; [apply SyntaxFacts.meas_maps_print|].
  split; [vm_compute; reflexivity|].
  split; repeat constructor.
Qed.

(** X5: the hand-built measurement acquires qubits 0 and 1 only.  A schedule
    has the acquisitions a measurement map requires exactly when it acquires
    none or all of the qubits of each group; so for the map [[0, 1, 2]] that
    the ninth cell imagines for this example the hand-built schedule lacks
    the acquisition of qubit 2, and has all that is required once
    [acquire(AcquireChannel(2), MemorySlot(2))] is added; for the map
    [[0], [1], [2], [3, 4]] nothing is missing. *)
Theorem X5_hand_built_acquisitions :
  (exists line, source cell8 !! 24%nat = Some line /\
                contains ("map: `" +:+ show_expr meas_map_hand +:+ "`") line = true) /\
  read_meas_map meas_map_hand = Some [[0; 1; 2]%nat] /\
  acquired_qubits Tutorial.measure_sched = [0; 1]%nat /\
  (forall (m : list (list nat)) (s : Schedule),
     complete_for m s <->
     forall g, g ∈ m ->
       (forall q, q ∈ g -> q ∉ acquired_qubits s) \/
       (forall q, q ∈ g -> q ∈ acquired_qubits s)) /\
  acquired_with [[0; 1; 2]%nat] 0 = [0; 1; 2]%nat /\
  ~ complete_for [[0; 1; 2]%nat] Tutorial.measure_sched /\
  complete_for [[0; 1; 2]%nat]
    (append Tutorial.measure_sched (Tutorial.acquire (AcquireChannel 2) (MemorySlot 2))) /\
  complete_for meas_map Tutorial.measure_sched.
Proof.
  split; [eexists; split; [reflexivity | vm_compute; reflexivity]|].
  split; [vm_compute; reflexivity|].
  split; [vm_compute; reflexivity|].
  split; [apply CoverageFacts.complete_for_groups|].
  split; [vm_compute; reflexivity|].
  split; [|split]; apply (bool_decide_unpack _); vm_compute; exact I.
Qed.

(** X6: the hand-built measure_sched can be added to the end of any schedule
    with the idiom of the first cell, [sched + (measure_sched << sched.duration)]:
    the instructions of sched stay as they are, the four instructions of the
    measurement start together, no earlier than sched ends, and run for 16000
    cycles to the end of the new schedule, which acquires what sched acquired
    and then qubits 0 and 1 into memory slots 0 and 1. *)
Theorem X6_measure_sched_added_to_end (sched0 : Schedule) :
  let wait := ch_stop_time sched0 (common_channels sched0 Tutorial.measure_sched) in
  let t := duration_of sched0 + wait in
  let r := add_to_end sched0 Tutorial.measure_sched in
  r = sched0 ++ shift t Tutorial.measure_sched /\
  take (length sched0) r = sched0 /\
  duration_of sched0 <= t /\
  Forall (fun ti => start_time ti = t /\ stop_time ti = t + 16000)
         (drop (length sched0) r) /\
  length (drop (length sched0) r) = 4%nat /\
  duration_of r = t + 16000 /\
  acquisitions r =
    acquisitions sched0 ++ [(AcquireChannel 0, MemorySlot 0); (AcquireChannel 1, MemorySlot 1)].
Proof.
  intros wait t r.
  assert (Hwait : 0 <= wait) by apply PulseFacts.ch_stop_time_nonneg.
  assert (Hr : r = sched0 ++ shift t Tutorial.measure_sched).
  { unfold r, add_to_end. rewrite PulseFacts.append_unfold. unfold common_channels.
    rewrite PulseFacts.channels_shift, PulseFacts.shift_shift. reflexivity. }
  assert (Hshift : shift t Tutorial.measure_sched =
            [(0 + t, Play Tutorial.stimulus (MeasureChannel 0));
             (0 + t, Play Tutorial.stimulus (MeasureChannel 1));
             (0 + t, AcquireInstruction 16000 (AcquireChannel 0) (MemorySlot 0));
             (0 + t, AcquireInstruction 16000 (AcquireChannel 1) (MemorySlot 1))])
    by reflexivity.
  pose proof (PulseFacts.duration_of_nonneg sched0) as Hdur.
  split; [exact Hr|]. rewrite Hr.
  split; [apply take_app_length|].
  split; [lia|].
  rewrite drop_app_length, Hshift.
  split.
  { repeat constructor; unfold start_time, stop_time; simpl; lia. }
  split; [reflexivity|].
  split.
  { rewrite CoverageFacts.duration_of_app. unfold duration_of at 2, stop_time. simpl.
    unfold Tutorial.duration. lia. }
  rewrite CoverageFacts.acquisitions_app. reflexivity.
Qed.

(** X7: [+] alone does not add to the end.  When sched has no instruction on
    the four channels of measure_sched, [sched + measure_sched] leaves the
    four instructions of the measurement at 0 to 16000, whatever sched holds:
    with a positive duration of sched the measurement starts before sched
    ends, and every instruction of sched that starts before 16000 and ends
    after 0 overlaps in time with each instruction of the measurement.  This
    is what the shift by [sched.duration] is for. *)
Theorem X7_plus_alone_starts_at_0 (sched0 : Schedule) :
  (forall c, c ∈ channels Tutorial.measure_sched -> c ∉ channels sched0) ->
  append sched0 Tutorial.measure_sched = sched0 ++ Tutorial.measure_sched /\
  Forall (fun ti => start_time ti = 0 /\ stop_time ti = 16000)
         (drop (length sched0) (append sched0 Tutorial.measure_sched)) /\
  length (drop (length sched0) (append sched0 Tutorial.measure_sched)) = 4%nat /\
  (0 < duration_of sched0 ->
   Forall (fun ti => start_time ti < duration_of sched0)
          (drop (length sched0) (append sched0 Tutorial.measure_sched))) /\
  (forall old new,
     old ∈ sched0 ->
     new ∈ drop (length sched0) (append sched0 Tutorial.measure_sched) ->
     start_time old < 16000 -> 0 < stop_time old -> overlaps old new).
Proof.
  intros Hdisj.
  assert (Happ : append sched0 Tutorial.measure_sched = sched0 ++ Tutorial.measure_sched)
    by (apply PulseFacts.append_disjoint; exact Hdisj).
  assert (Hnew : Forall (fun ti => start_time ti = 0 /\ stop_time ti = 16000)
                        Tutorial.measure_sched) by (repeat constructor).
  split; [exact Happ|]. rewrite Happ, drop_app_length.
  split; [exact Hnew|].
  split; [reflexivity|].
  split.
  - intros Hpos. eapply Forall_impl; [exact Hnew|].
    intros ti [Hstart _]. simpl. lia.
  - intros old new _ Hin Hbefore Hafter.
    rewrite Forall_forall in Hnew. destruct (Hnew new Hin) as [Hstart Hstop].
    unfold overlaps. lia.
Qed.

(** X7 at a schedule with one pulse on MeasureChannel(2), from 0 to 16000:
    it overlaps the stimulus on MeasureChannel(0), which [+] leaves at 0. *)
Lemma X7_plus_alone_starts_at_0_witness :
  overlaps (0, Play Tutorial.stimulus (MeasureChannel 2))
           (0, Play Tutorial.stimulus (MeasureChannel 0)).
Proof.
  apply (X7_plus_alone_starts_at_0 (play Tutorial.stimulus (MeasureChannel 2))).
  - apply Forall_forall. apply (bool_decide_unpack _). vm_compute. exact I.
  - apply list_elem_of_here.
  - apply list_elem_of_here.
  - vm_compute. reflexivity.
  - vm_compute. reflexivity.
Defined.

(** X8: for every backend, what the third cell leaves in [sched] is the
    measurement of all the qubits: appending to the new, empty schedule adds
    nothing else.  It has two channels for each qubit of the backend, a
    measure channel and an acquire channel, no channel twice; every
    instruction starts at time 0, and qubit q is acquired into memory slot q. *)
Theorem X8_measure_all_two_channels_per_qubit (b : Backend) :
  value_after b (code1 ++ code2) ∅ "sched" = Some (VSchedule (Tutorial.sched_all b)) /\
  Tutorial.sched_all b = measure_all b /\
  channels (measure_all b) = readout_channels (n_qubits b) /\
  (forall c : channel, c ∈ channels (measure_all b) <-> (channel_index c < n_qubits b)%nat) /\
  NoDup (channels (measure_all b)) /\
  length (channels (measure_all b)) = (2 * n_qubits b)%nat /\
  Forall (fun ti => start_time ti = 0) (measure_all b) /\
  acquisitions (measure_all b)
  = map (fun q => (AcquireChannel q, MemorySlot q)) (seq 0 (n_qubits b)).
Proof.
  assert (Hch : channels (measure_all b) = readout_channels (n_qubits b))
    by apply CoverageFacts.channels_measure.
  split; [apply RunFacts.run_measure_all|].
  split; [apply RunFacts.sched_all_measure_all|].
  split; [exact Hch|]. rewrite Hch. unfold readout_channels.
  split.
  { intros c. rewrite CoverageFacts.elem_of_readout, elem_of_seq. lia. }
  split; [apply CoverageFacts.NoDup_readout, NoDup_seq|].
  split.
  { rewrite CoverageFacts.length_readout, length_seq. reflexivity. }
  split.
  { apply Forall_forall. intros ti. apply PulseFacts.measure_starts_at_0. }
  apply CoverageFacts.acquisitions_measure_default.
Qed.

(** X9: the measurement of all the qubits of a backend acquires every qubit
    of the backend, each into the memory slot of its index; so whatever
    groups a measurement map makes of qubits of the backend, every qubit of
    every group is acquired, each group whole, and the schedule has all the
    acquisitions the map requires.  The same holds of [sched] after the
    third cell. *)
Theorem X9_measure_all_complete (b : Backend) (m : list (list nat)) :
  (forall g q, g ∈ m -> q ∈ g -> (q < n_qubits b)%nat) ->
  acquired_qubits (measure_all b) = seq 0 (n_qubits b) /\
  (forall g q, g ∈ m -> q ∈ g -> q ∈ acquired_qubits (measure_all b)) /\
  (forall g q, g ∈ m -> q ∈ g ->
     (AcquireChannel q, MemorySlot q) ∈ acquisitions (measure_all b)) /\
  complete_for m (measure_all b) /\
  Tutorial.sched_all b = measure_all b.
Proof.
  intros Hmap.
  assert (Hqubits : acquired_qubits (measure_all b) = seq 0 (n_qubits b))
    by apply CoverageFacts.acquired_qubits_measure_default.
  assert (Hin : forall g q, g ∈ m -> q ∈ g -> q ∈ seq 0 (n_qubits b)).
  { intros g q Hg Hq. apply elem_of_seq. specialize (Hmap g q Hg Hq). lia. }
  split; [exact Hqubits|].
  split; [rewrite Hqubits; exact Hin|].
  split.
  { intros g q Hg Hq. unfold measure_all.
    rewrite CoverageFacts.acquisitions_measure_default.
    apply list_elem_of_fmap. exists q. split; [reflexivity | eauto]. }
  split; [|apply RunFacts.sched_all_measure_all].
  apply CoverageFacts.complete_for_groups. intros g Hg. right. intros q Hq.
  rewrite Hqubits. eauto.
Qed.

(** X9 at a backend with five qubits and the map [[0], [1], [2], [3, 4]]:
    qubit 4, of the group [3, 4], is acquired. *)
Lemma X9_measure_all_complete_witness :
  (4%nat ∈ acquired_qubits (measure_all (mkBackend 5 (fun _ => Tutorial.stimulus) 16000))).
Proof.
  apply (X9_measure_all_complete (mkBackend 5 (fun _ => Tutorial.stimulus) 16000) meas_map)
    with (g := [3; 4]%nat).
  - intros g q Hg Hq. simpl.
    revert q Hq. apply Forall_forall. revert g Hg. apply Forall_forall.
    apply (bool_decide_unpack _). vm_compute. exact I.
  - apply (bool_decide_unpack _). vm_compute. exact I.
  - apply (bool_decide_unpack _). vm_compute. exact I.
Defined.

(** X10: every name the code cells import is read by a later statement,
    except two: IBMQ, which the first code cell imports, and qiskit, the
    package name the plain import of the last code cell binds before the two
    line magics; no name is imported twice. *)
Theorem X10_imports_used :
  imports program =
    [("qiskit", "IBMQ"); ("qiskit.pulse", "Schedule");
     ("qiskit.scheduler", "measure_all"); ("qiskit.test.mock", "FakeAlmaden");
     ("qiskit.scheduler", "measure"); ("qiskit.pulse", "MeasureChannel");
     ("qiskit.pulse", "AcquireChannel"); ("qiskit.pulse", "MemorySlot");
     ("qiskit.pulse", "GaussianSquare"); ("qiskit.pulse", "Acquire");
     ("qiskit.tools.jupyter", "qiskit")] /\
  map snd (imports program) = flat_map binds (filter (fun s => stmt_expr s = None) program) /\
  NoDup (map snd (imports program)) /\
  filter (fun n => n ∉ flat_map reads program) (map snd (imports program))
    = ["IBMQ"; "qiskit"] /\
  program !! 0%nat = Some (SFromImport "qiskit" ["IBMQ"]) /\
  drop 28 program =
    [SImport "qiskit.tools.jupyter"; SMagic "qiskit_version_table"; SMagic "qiskit_copyright"] /\
  (forall b : Backend,
     value_after b program ∅ "qiskit" = Some (VModule "qiskit") /\
     value_after b program ∅ "IBMQ" = Some (VSymbol "IBMQ")).
Proof.
  split; [vm_compute; reflexivity|].
  split; [vm_compute; reflexivity|].
  split; [apply (bool_decide_unpack _); vm_compute; exact I|].
  split; [vm_compute; reflexivity|].
  split; [vm_compute; reflexivity|].
  split; [vm_compute; reflexivity|].
  intros b. split; vm_compute; reflexivity.
Qed.
